(** * YorkUChats: the write-admission pipeline of [server/server.js]

    A shallow embedding of the Express handlers of [src/server/server.js]
    (course, section and link creation, link clicks, verification issuance,
    report submission) together with the rate limiters they are mounted
    behind, and the properties of the specification stated over it.

    Conventions.
    - A request body is a flat JSON object: a finite map from field names to
      primitive values ([jsval]).  Nested objects and arrays are outside the
      model; numbers are the integers a double holds exactly, of magnitude
      below 2^53 (JavaScript prints them in full decimal).
    - Strings are strings of ASCII characters, on which [trim] and
      [toUpperCase] are what JavaScript computes; characters beyond ASCII
      are outside the model.
    - A handler is a [Task]: a tree of synchronous blocks and awaited calls,
      each acting atomically on the [World] (the MongoDB collections, the
      verifier's table and the mail provider's log).  [run] executes one
      handler from start to end; [schedule] interleaves several.
    - The captcha service and the mail provider are functions given from
      outside (section variables); the clock reading and the one-time code
      drawn while a request is handled are fields of the request. *)

From Stdlib Require Import ZArith QArith String Ascii List Bool Lia DecimalString DecimalPos.
From stdpp Require Import base gmap strings list.

Close Scope Q_scope.
Open Scope string_scope.
Open Scope Z_scope.

(** ** JavaScript values and strings *)

Module JS.

Inductive jsval : Type :=
| JUndef
| JNull
| JBool (b : bool)
| JNum (n : Z)
| JStr (s : string).

Definition jsval_eqb (a b : jsval) : bool :=
  match a, b with
  | JUndef, JUndef => true
  | JNull, JNull => true
  | JBool x, JBool y => Bool.eqb x y
  | JNum x, JNum y => x =? y
  | JStr x, JStr y => String.eqb x y
  | _, _ => false
  end.

(** ToBoolean: what [if (v)], [!v] and [a && b] test. *)
Definition truthy (v : jsval) : bool :=
  match v with
  | JUndef | JNull => false
  | JBool b => b
  | JNum n => negb (n =? 0)
  | JStr s => negb (String.eqb s "")
  end.

(** [a || b] *)
Definition or_else (a b : jsval) : jsval := if truthy a then a else b.

(** ToString: what a template literal [`${v}`] and a String-typed schema
    path make of a primitive. *)
Definition String_ (v : jsval) : string :=
  match v with
  | JUndef => "undefined"
  | JNull => "null"
  | JBool true => "true"
  | JBool false => "false"
  | JNum n => NilZero.string_of_int (Z.to_int n)
  | JStr s => s
  end.

Definition is_white (c : ascii) : bool :=
  let n := N_of_ascii c in
  ((n =? 32) || ((9 <=? n) && (n <=? 13)))%N.

Fixpoint trimStart (s : string) : string :=
  match s with
  | EmptyString => EmptyString
  | String c s' => if is_white c then trimStart s' else s
  end.

Fixpoint trimEnd (s : string) : string :=
  match s with
  | EmptyString => EmptyString
  | String c s' =>
      match trimEnd s' with
      | EmptyString => if is_white c then EmptyString else String c EmptyString
      | t => String c t
      end
  end.

(** [s.trim()] *)
Definition trim (s : string) : string := trimEnd (trimStart s).

Definition upper (c : ascii) : ascii :=
  let n := N_of_ascii c in
  if ((97 <=? n) && (n <=? 122))%N then ascii_of_N (n - 32) else c.

(** [s.toUpperCase()] *)
Fixpoint toUpperCase (s : string) : string :=
  match s with
  | EmptyString => EmptyString
  | String c s' => String (upper c) (toUpperCase s')
  end.

(** [s.replaceAll(pat, by)] for a pattern of one character. *)
Fixpoint replaceAll (pat : ascii) (by_ : string) (s : string) : string :=
  match s with
  | EmptyString => EmptyString
  | String c s' =>
      if Ascii.eqb c pat then by_ +:+ replaceAll pat by_ s'
      else String c (replaceAll pat by_ s')
  end.

(** [v.replaceAll(pat, by)] on a value: only strings have the method, on
    anything else the call throws a TypeError ([None]). *)
Definition method_replaceAll (pat : ascii) (by_ : string) (v : jsval) : option string :=
  match v with
  | JStr s => Some (replaceAll pat by_ s)
  | _ => None
  end.

(** A JSON object of primitives, and the read [o.k] ([undefined] when the
    key is missing). *)
Definition get (o : gmap string jsval) (k : string) : jsval :=
  default JUndef (o !! k).

End JS.
Export JS.

Abbreviation Body := (gmap string jsval).

(** ** Requests and responses *)

Record Request : Type := {
  param_code : string;          (* req.params.code *)
  param_section : string;       (* req.params.section *)
  body : Body;                  (* req.body *)
  ip : string;                  (* req.ip, the rate limiters' default key *)
  remoteAddress : jsval;        (* req.connection.remoteAddress *)
  now : Z;                      (* the clock (ms) while the request is handled *)
  nonce : jsval                 (* the code createCode would draw for it *)
}.

Inductive Payload : Type :=
| error (msg : string)          (* { error: msg } *)
| echo (b : Body).              (* the request body sent back *)

Inductive Response : Type :=
| res (status : Z) (headers : list (string * string)) (json : Payload)
| unhandledRejection.           (* the handler threw outside its try block:
                                   no answer is written; what the runtime
                                   then does with the process is not modelled *)

Definition CREATED : Z := 201.
Definition BAD_REQUEST : Z := 400.
Definition UNAUTHORIZED : Z := 401.
Definition GONE : Z := 410.
Definition NOT_FOUND : Z := 404.
Definition CONFLICT : Z := 409.
Definition SERVER_ERROR : Z := 500.
Definition UNPROCESSABLE : Z := 422.

Definition status_of (r : Response) : option Z :=
  match r with
  | res s _ _ => Some s
  | unhandledRejection => None
  end.

Definition json (status : Z) (p : Payload) : Response := res status [] p.

Definition bad_request : Response :=
  json BAD_REQUEST (error "Bad request. Check parameters.").

(** [errorHandler]: what the catch blocks answer. *)
Definition errorHandler : Response :=
  json SERVER_ERROR (error "An server error occured.").

(** ** The document store

    [./db/models/course] and [./db/models/report] are not part of the
    sources at hand; the documents carry the fields the specification's data
    model lists (section 3). *)

(** Modelled from the spec: the Link schema of [./db/models/course]: type,
    url, click counter, creation and update times. *)
Record LinkDoc : Type := {
  link_type : string;
  link_url : string;
  link_clicks : Z;
  link_createdAt : Z;
  link_updatedAt : Z
}.

(** Modelled from the spec: the Section schema of [./db/models/course]: a
    name and the ordered sequence of its links. *)
Record SectionDoc : Type := {
  section_name : string;
  section_links : list LinkDoc
}.

(** Modelled from the spec: the Course schema of [./db/models/course]: the
    derived code, the fields it is derived from, the name, and the ordered
    sequence of sections. *)
Record CourseDoc : Type := {
  course_code : string;
  course_name : string;
  course_faculty : string;
  course_subject : string;
  course_number : string;
  course_credits : string;
  course_sections : list SectionDoc
}.

(** Modelled from the spec: the Report schema of [./db/models/report]: link
    reference, reason, submitter origin, creation time. *)
Record ReportDoc : Type := {
  report_link : string;
  report_reason : string;
  report_ip : jsval;
  report_createdAt : Z
}.

(** Modelled from the spec: the code the Course schema of
    [./db/models/course] derives, the "uppercase concatenation of
    faculty+subject+number+credits, trimmed". *)
Definition derived_code (b : Body) : string :=
  toUpperCase (trim (String_ (get b "faculty") +:+ String_ (get b "subject")
                     +:+ String_ (get b "number") +:+ String_ (get b "credits"))).

(** Modelled from the spec: the document the Course schema makes of the
    object handed to [Course.create]; its paths are strings, a new course
    has no sections. *)
Definition new_Course (b : Body) : CourseDoc :=
  {| course_code := derived_code b;
     course_name := String_ (get b "name");
     course_faculty := String_ (get b "faculty");
     course_subject := String_ (get b "subject");
     course_number := String_ (get b "number");
     course_credits := String_ (get b "credits");
     course_sections := [] |}.

(** Modelled from the spec: the document the Section schema makes of the
    object handed to [new Section]; a new section has no links. *)
Definition new_Section (b : Body) : SectionDoc :=
  {| section_name := String_ (get b "name"); section_links := [] |}.

(** Modelled from the spec: the document the Link schema makes of the
    object literal [{...req.body, createdAt: new Date(), updatedAt: new
    Date()}] handed to [new Link]; the click counter starts at zero. *)
Definition new_Link (b : Body) (date : Z) : LinkDoc :=
  {| link_type := String_ (get b "type");
     link_url := String_ (get b "url");
     link_clicks := 0;
     link_createdAt := date;
     link_updatedAt := date |}.

(** Modelled from the spec: the document the Report schema makes of the
    object handed to [Report.create]: link reference, reason and origin are
    read from it, other fields are not part of a report. *)
Definition new_Report (o : Body) (date : Z) : ReportDoc :=
  {| report_link := String_ (get o "link_id");
     report_reason := String_ (get o "reason");
     report_ip := get o "ip";
     report_createdAt := date |}.

(** ** The verifier

    [./mod/verifier] (class [Verifier]) is not part of the sources at hand;
    its table and methods follow section 4.2 of the specification. *)

(** Modelled from the spec: the VerificationRecord of a [Verifier], the
    issued code and the issuance time (clock reading in milliseconds), kept
    per normalized identity. *)
Record VerificationRecord : Type := {
  issued_code : jsval;
  issued_at : Z
}.

(** Modelled from the spec: the outcomes of [deliver], the mail provider
    behind [Verifier.sendCode]. *)
Inductive deliveryOutcome : Type := accepted | invalidAddress | providerFailure.

Module Verifier.

(** Modelled from the spec: the validity window of a code of a [Verifier],
    15 minutes. *)
Definition validity_minutes : Q := 15 # 1.

(** Modelled from the spec: the age a [Verifier] measures, the minutes
    elapsed from [t] to [clock], both clock readings in milliseconds. *)
Definition minutes_since (t clock : Z) : Q := (clock - t) # 60000.

(** Modelled from the spec: a record of a [Verifier] is live while its age
    has not exceeded the validity window. *)
Definition live (r : VerificationRecord) (clock : Z) : bool :=
  Qle_bool (minutes_since (issued_at r) clock) validity_minutes.

(** Modelled from the spec: [Verifier.hasCode], the spec's hasLiveCode:
    a record exists and has not exceeded its validity window. *)
Definition hasCode (tbl : gmap string VerificationRecord) (clock : Z)
           (username : string) : bool :=
  match tbl !! username with
  | Some r => live r clock
  | None => false
  end.

(** Modelled from the spec: [Verifier.checkCodeTime], the spec's
    issuanceAge: time since the last issuance, absent when there is none. *)
Definition checkCodeTime (tbl : gmap string VerificationRecord) (clock : Z)
           (username : string) : option Q :=
  match tbl !! username with
  | Some r => Some (minutes_since (issued_at r) clock)
  | None => None
  end.

(** Modelled from the spec: [Verifier.createCode], the spec's issueCode:
    a new code ([fresh], drawn outside the model) overwrites any record of
    the identity and the issuance time is stamped. *)
Definition createCode (tbl : gmap string VerificationRecord) (clock : Z)
           (username : string) (fresh : jsval)
  : jsval * gmap string VerificationRecord :=
  (fresh, <[username := {| issued_code := fresh; issued_at := clock |}]> tbl).

(** Modelled from the spec: [Verifier.checkCode], the spec's verifyCode:
    a live record exists and its stored code equals the supplied one
    exactly.  Section 9 of the specification leaves open whether a
    successful check uses the record up and reports of the source only a
    boolean comparison; that is what is modelled, the table stays as it
    is. *)
Definition checkCode (tbl : gmap string VerificationRecord) (clock : Z)
           (username : string) (supplied : jsval) : bool :=
  match tbl !! username with
  | Some r => live r clock && jsval_eqb (issued_code r) supplied
  | None => false
  end.

(** Modelled from the spec: the [statusCode] of what [Verifier.sendCode]
    resolves to, read off the handler's tests: 202 accepted, 422 invalid
    address, anything else a provider failure. *)
Definition statusCode (o : deliveryOutcome) : option Z :=
  match o with
  | accepted => Some 202
  | invalidAddress => Some 422
  | providerFailure => None
  end.

End Verifier.

(** ** The world the handlers act on *)

Record World : Type := {
  Courses : list CourseDoc;                      (* the courses collection *)
  Reports : list ReportDoc;                      (* the reports collection *)
  verifier : gmap string VerificationRecord;     (* app.verifier *)
  outbox : list (string * jsval)                 (* codes handed to the mail provider *)
}.

Definition set_Courses (cs : list CourseDoc) (w : World) : World :=
  {| Courses := cs; Reports := Reports w; verifier := verifier w; outbox := outbox w |}.

Definition set_Reports (rs : list ReportDoc) (w : World) : World :=
  {| Courses := Courses w; Reports := rs; verifier := verifier w; outbox := outbox w |}.

Definition set_verifier (v : gmap string VerificationRecord) (w : World) : World :=
  {| Courses := Courses w; Reports := Reports w; verifier := v; outbox := outbox w |}.

Definition set_outbox (o : list (string * jsval)) (w : World) : World :=
  {| Courses := Courses w; Reports := Reports w; verifier := verifier w; outbox := o |}.

(** ** Tasks: async functions as trees of atomic turns

    [Await io k] is [x = await io; k x], a call that completes at some later
    turn of the event loop; [Sync act k] is synchronous code touching shared
    state (the verifier's table), which runs without yielding. *)

Inductive Task (R : Type) : Type :=
| Done (r : R)
| Sync {X : Type} (act : World -> X * World) (k : X -> Task R)
| Await {X : Type} (io : World -> X * World) (k : X -> Task R).

Arguments Done {R} r.
Arguments Sync {R X} act k.
Arguments Await {R X} io k.

(** One handler alone, start to end. *)
Fixpoint run {R : Type} (t : Task R) (w : World) : R * World :=
  match t with
  | Done r => (r, w)
  | Sync act k => let '(x, w') := act w in run (k x) w'
  | Await io k => let '(x, w') := io w in run (k x) w'
  end.

(** Synchronous code runs on to the next await without yielding. *)
Fixpoint settle {R : Type} (t : Task R) (w : World) : Task R * World :=
  match t with
  | Sync act k => let '(x, w') := act w in settle (k x) w'
  | _ => (t, w)
  end.

(** One turn of the event loop for a task: its pending awaited call
    completes and its continuation runs to the next await. *)
Definition turn {R : Type} (t : Task R) (w : World) : Task R * World :=
  match t with
  | Done r => (Done r, w)
  | Sync _ _ => settle t w
  | Await io k => let '(x, w') := io w in settle (k x) w'
  end.

(** Several requests in flight: [order] names, turn by turn, the task whose
    awaited call completes next. *)
Fixpoint schedule {R : Type} (order : list nat) (pool : list (Task R)) (w : World)
  : list (Task R) * World :=
  match order with
  | [] => (pool, w)
  | i :: rest =>
      match pool !! i with
      | Some t => let '(t', w') := turn t w in schedule rest (<[i := t']> pool) w'
      | None => schedule rest pool w
      end
  end.

Definition finished {R : Type} (t : Task R) : option R :=
  match t with
  | Done r => Some r
  | _ => None
  end.

(** ** The queries and updates the handlers send to MongoDB

    A filter is a predicate on course documents.  A dotted path through an
    array ("sections.name", "sections.links.url") holds when some element
    satisfies it, each path on its own. *)

Module Mongo.

(** [{ code: code }] *)
Definition code_is (code : string) (c : CourseDoc) : bool :=
  String.eqb (course_code c) code.

(** [{ "sections.name": name }] *)
Definition sections_name_is (name : string) (c : CourseDoc) : bool :=
  existsb (fun s => String.eqb (section_name s) name) (course_sections c).

(** [{ "sections.links.url": url }] *)
Definition sections_links_url_is (url : string) (c : CourseDoc) : bool :=
  existsb (fun s => existsb (fun l => String.eqb (link_url l) url) (section_links s))
          (course_sections c).

(** [Course.findOne(filter)] *)
Definition findOne (filter : CourseDoc -> bool) : World -> option CourseDoc * World :=
  fun w => (List.find filter (Courses w), w).

Fixpoint update_first (filter : CourseDoc -> bool) (update : CourseDoc -> CourseDoc)
         (cs : list CourseDoc) : list CourseDoc :=
  match cs with
  | [] => []
  | c :: cs' => if filter c then update c :: cs' else c :: update_first filter update cs'
  end.

(** [Course.findOneAndUpdate(filter, update)]: the first matching document
    is updated in place and handed back; nothing is inserted when none
    matches. *)
Definition findOneAndUpdate (filter : CourseDoc -> bool) (update : CourseDoc -> CourseDoc)
  : World -> option CourseDoc * World :=
  fun w => (List.find filter (Courses w),
            set_Courses (update_first filter update (Courses w)) w).

(** [Course.create(doc)] *)
Definition create_Course (doc : CourseDoc) : World -> unit * World :=
  fun w => (tt, set_Courses (Courses w ++ [doc]) w).

(** [Report.create(doc)] *)
Definition create_Report (doc : ReportDoc) : World -> unit * World :=
  fun w => (tt, set_Reports (Reports w ++ [doc]) w).

Definition with_sections (ss : list SectionDoc) (c : CourseDoc) : CourseDoc :=
  {| course_code := course_code c; course_name := course_name c;
     course_faculty := course_faculty c; course_subject := course_subject c;
     course_number := course_number c; course_credits := course_credits c;
     course_sections := ss |}.

(** [{ $push: { sections: section } }] *)
Definition push_sections (s : SectionDoc) (c : CourseDoc) : CourseDoc :=
  with_sections (course_sections c ++ [s]) c.

(** [{ $push: { "sections.$.links": link } }]: the positional [$] is the
    first section that met the filter's "sections.name" condition. *)
Fixpoint push_links_at (name : string) (l : LinkDoc) (ss : list SectionDoc)
  : list SectionDoc :=
  match ss with
  | [] => []
  | s :: ss' =>
      if String.eqb (section_name s) name
      then {| section_name := section_name s; section_links := section_links s ++ [l] |} :: ss'
      else s :: push_links_at name l ss'
  end.

Definition push_sections_links (name : string) (l : LinkDoc) (c : CourseDoc) : CourseDoc :=
  with_sections (push_links_at name l (course_sections c)) c.

Definition inc_link (l : LinkDoc) : LinkDoc :=
  {| link_type := link_type l; link_url := link_url l; link_clicks := link_clicks l + 1;
     link_createdAt := link_createdAt l; link_updatedAt := link_updatedAt l |}.

(** [{ $inc: { "sections.$[sec].links.$[link].clicks": 1 } }] with
    [arrayFilters: [{ "sec.links.url": url }, { "link.url": url }]]:
    in every section that holds a link with the url, every link with the
    url is incremented. *)
Definition inc_clicks (url : string) (c : CourseDoc) : CourseDoc :=
  with_sections
    (map (fun sec =>
            if existsb (fun l => String.eqb (link_url l) url) (section_links sec)
            then {| section_name := section_name sec;
                    section_links :=
                      map (fun link => if String.eqb (link_url link) url
                                       then inc_link link else link)
                          (section_links sec) |}
            else sec)
         (course_sections c))
    c.

End Mongo.

(** ** The handlers *)

Definition nonempty (s : string) : bool := negb (String.eqb s "").

(** line 363: [(req.body.username || "").replaceAll("@", "")] *)
Definition normalized_username (b : Body) : option string :=
  method_replaceAll "@" "" (or_else (get b "username") (JStr "")).

(** [codeTime && codeTime < 15] *)
Definition within_cooldown (codeTime : option Q) : bool :=
  match codeTime with
  | Some q => negb (Qeq_bool q 0) && negb (Qle_bool (15 # 1) q)
  | None => false
  end.

Definition statusCode_is (sendResult : option Z) (n : Z) : bool :=
  match sendResult with
  | Some s => s =? n
  | None => false
  end.

Section Handlers.

(** the captcha service: whether it reports success for a token *)
Variable siteverify : string -> bool.
(** the mail provider: what becomes of a code sent to an identity *)
Variable mailer : string -> jsval -> deliveryOutcome.

Definition verifyReCaptcha (token : jsval) : World -> bool * World :=
  fun w => (siteverify (String_ token), w).

(** Modelled from the spec: [Verifier.sendCode], the spec's deliver: the
    code is handed to the mail provider, whose outcome is the result. *)
Definition sendCode (username : string) (code : jsval) : World -> option Z * World :=
  fun w => (Verifier.statusCode (mailer username code),
            set_outbox (outbox w ++ [(username, code)]) w).

(** [app.post("/courses/", ...)] *)
Definition post_courses (req : Request) : Task Response :=
  let b := body req in
  if truthy (get b "name") && truthy (get b "subject") && truthy (get b "number")
     && truthy (get b "faculty") && truthy (get b "credits") && truthy (get b "captcha")
  then
    Await (verifyReCaptcha (get b "captcha")) (fun ok =>
      if ok then
        Await (Mongo.findOne
                 (Mongo.code_is (String_ (get b "faculty") +:+ String_ (get b "subject")
                                 +:+ String_ (get b "number") +:+ String_ (get b "credits"))))
              (fun course =>
                 match course with
                 | Some _ => Done (json CONFLICT (error "Course already exists."))
                 | None =>
                     Await (Mongo.create_Course (new_Course b))
                           (fun _ => Done (json CREATED (echo b)))
                 end)
      else Done bad_request)
  else Done bad_request.

(** [app.post("/courses/:code/sections", ...)] *)
Definition post_sections (req : Request) : Task Response :=
  let b := body req in
  let code := toUpperCase (trim (param_code req)) in
  if nonempty code && truthy (get b "name") && truthy (get b "captcha") then
    Await (verifyReCaptcha (get b "captcha")) (fun ok =>
      if ok then
        let section := new_Section b in
        Await (Mongo.findOne
                 (fun c => Mongo.code_is code c
                           && Mongo.sections_name_is (String_ (get b "name")) c))
              (fun course =>
                 match course with
                 | Some _ => Done (json CONFLICT (error "Section already exists."))
                 | None =>
                     Await (Mongo.findOneAndUpdate (Mongo.code_is code)
                                                   (Mongo.push_sections section))
                           (fun course =>
                              match course with
                              | None => Done (json NOT_FOUND (error "Course not found."))
                              | Some _ => Done (json CREATED (echo b))
                              end)
                 end)
      else Done bad_request)
  else Done bad_request.

(** the store part of link creation: lines 379 to 391 *)
Definition link_store (req : Request) (code section : string) : Task Response :=
  let b := body req in
  let link := new_Link b (now req) in
  Await (Mongo.findOne
           (fun c => Mongo.code_is code c && Mongo.sections_name_is section c
                     && Mongo.sections_links_url_is (String_ (get b "url")) c))
        (fun course =>
           match course with
           | Some _ => Done (json CONFLICT (error "Link already exists."))
           | None =>
               Await (Mongo.findOneAndUpdate
                        (fun c => Mongo.code_is code c && Mongo.sections_name_is section c)
                        (Mongo.push_sections_links section link))
                     (fun course =>
                        match course with
                        | None => Done (json NOT_FOUND (error "Course or section not found."))
                        | Some _ => Done (json CREATED (echo b))
                        end)
           end).

(** [app.post("/courses/:code/sections/:section/link", ...)] *)
Definition post_link (req : Request) : Task Response :=
  let b := body req in
  let code := toUpperCase (trim (param_code req)) in
  let section := param_section req in
  match normalized_username b with
  | None => Done unhandledRejection
  | Some username =>
      if nonempty code && nonempty section && truthy (get b "type") && truthy (get b "url")
         && truthy (get b "terms") && truthy (get b "username") && truthy (get b "code")
      then
        Sync (fun w => (Verifier.hasCode (verifier w) (now req) username, w)) (fun has =>
          if has then
            Sync (fun w => (Verifier.checkCode (verifier w) (now req) username
                                               (or_else (get b "code") (JNum 0)), w))
                 (fun matches =>
                    if matches then link_store req code section
                    else Done (json UNAUTHORIZED
                                    (error "Email code does not match records. Unauthorized!")))
          else Done (json GONE (error "Email code expired. Refresh the page.")))
      else Done bad_request
  end.

(** [app.post("/courses/:code/sections/:section/link/click", ...)] *)
Definition post_link_click (req : Request) : Task Response :=
  let b := body req in
  let urlToUpdate := get b "url" in
  let code := toUpperCase (trim (param_code req)) in
  let section := param_section req in
  if truthy urlToUpdate && nonempty code && nonempty section then
    Await (Mongo.findOneAndUpdate
             (fun c => Mongo.code_is code c && Mongo.sections_name_is section c
                       && Mongo.sections_links_url_is (String_ urlToUpdate) c)
             (Mongo.inc_clicks (String_ urlToUpdate)))
          (fun _ => Done (json CREATED (echo b)))
  else Done bad_request.

(** [app.post("/verify/create", ...)] *)
Definition post_verify_create (req : Request) : Task Response :=
  let b := body req in
  if truthy (get b "username") && truthy (get b "captcha") then
    Await (verifyReCaptcha (get b "captcha")) (fun ok =>
      if ok then
        match method_replaceAll "@" "" (get b "username") with
        | None => Done errorHandler
        | Some username =>
            Sync (fun w => (Verifier.checkCodeTime (verifier w) (now req) username, w))
                 (fun codeTime =>
                    if within_cooldown codeTime then Done (json CREATED (echo b))
                    else
                      Sync (fun w =>
                              let '(c, tbl) := Verifier.createCode (verifier w) (now req)
                                                                   username (nonce req) in
                              (c, set_verifier tbl w))
                           (fun newCode =>
                              Await (sendCode username newCode) (fun sendResult =>
                                if statusCode_is sendResult 422 then
                                  Done (json UNPROCESSABLE (error "Invalid e-mail."))
                                else if negb (statusCode_is sendResult 202) then
                                  Done (json SERVER_ERROR
                                             (error "Failed to send e-mail. Contact project developer(s)."))
                                else Done (json CREATED (echo b)))))
        end
      else Done bad_request)
  else Done bad_request.

(** [app.post("/report", ...)] *)
Definition post_report (req : Request) : Task Response :=
  let b := body req in
  if truthy (get b "link_id") && truthy (get b "reason") && truthy (get b "captcha") then
    Await (verifyReCaptcha (get b "captcha")) (fun ok =>
      if ok then
        Await (Mongo.create_Report
                 (new_Report (<["ip" := remoteAddress req]> b) (now req)))
              (fun _ => Done (json CREATED (echo b)))
      else Done bad_request)
  else Done bad_request.

End Handlers.

(** ** Rate limiting ([express-rate-limit] with its memory store)

    Each limiter counts hits per key in a table that is cleared every
    [windowMs]; a request whose count exceeds [max] is answered by the
    limiter's handler and goes no further. *)

Record RateLimit : Type := {
  windowMs : Z;
  max : Z;
  keyGenerator : Request -> string
}.

Inductive Limiter : Type :=
| newCourseLimiter
| newLinkLimiter
| newSectionLimiter
| courseSearchLimiter
| courseInfoLimiter
| linkClicksLimiter
| linkClicksLongLimiter
| reportLimiter
| verifyLimiter
| verifySpamLimiter.

Definition options (l : Limiter) : RateLimit :=
  match l with
  | newCourseLimiter => {| windowMs := 24 * 60 * 60 * 1000; max := 10; keyGenerator := ip |}
  | newLinkLimiter => {| windowMs := 60 * 1000; max := 30; keyGenerator := ip |}
  | newSectionLimiter => {| windowMs := 24 * 60 * 60 * 1000; max := 10; keyGenerator := ip |}
  | courseSearchLimiter => {| windowMs := 1000; max := 100; keyGenerator := ip |}
  | courseInfoLimiter => {| windowMs := 1000; max := 20; keyGenerator := ip |}
  | linkClicksLimiter => {| windowMs := 60 * 1000; max := 3; keyGenerator := ip |}
  | linkClicksLongLimiter => {| windowMs := 60 * 60 * 1000; max := 10; keyGenerator := ip |}
  | reportLimiter => {| windowMs := 60 * 1000; max := 1; keyGenerator := ip |}
  | verifyLimiter => {| windowMs := 60 * 1000; max := 1; keyGenerator := ip |}
  | verifySpamLimiter =>
      {| windowMs := 60 * 60 * 24 * 1000; max := 300; keyGenerator := fun _ => "ALL" |}
  end.

Record MemoryStore : Type := {
  hits : gmap string Z;
  resetTime : Z
}.

(** The store as the clock reads [clock]: cleared at every multiple of the
    window that has gone by. *)
Definition elapse (window : Z) (st : MemoryStore) (clock : Z) : MemoryStore :=
  if resetTime st <=? clock then
    {| hits := ∅;
       resetTime := resetTime st + ((clock - resetTime st) / window + 1) * window |}
  else st.

Definition incr (window : Z) (st : MemoryStore) (key : string) (clock : Z)
  : Z * MemoryStore :=
  let st' := elapse window st clock in
  let current := default 0 (hits st' !! key) + 1 in
  (current, {| hits := <[key := current]> (hits st'); resetTime := resetTime st' |}).

(** [limiterHandler], after the library has set its reset header (seconds). *)
Definition limiterHandler (reset : Z) : Response :=
  res 429
      [("X-RateLimit-Reset", NilZero.string_of_int (Z.to_int ((reset + 999) / 1000)));
       ("Access-Control-Expose-Headers", "X-RateLimit-Reset")]
      (error "Rate limit reached. Sorry blud.").

(** The middleware: [None] is [next()]. *)
Definition rateLimit (o : RateLimit) (st : MemoryStore) (req : Request)
  : option Response * MemoryStore :=
  let '(current, st') := incr (windowMs o) st (keyGenerator o req) (now req) in
  if max o <? current then (Some (limiterHandler (resetTime st')), st') else (None, st').

Global Instance Limiter_eq_dec : EqDecision Limiter.
Proof. solve_decision. Defined.

Inductive Route : Type :=
| POST_courses
| POST_courses_sections
| POST_courses_sections_link
| POST_courses_sections_link_click
| POST_verify_create
| POST_report.

(** The limiters each route is registered with, in order. *)
Definition middleware (r : Route) : list Limiter :=
  match r with
  | POST_courses => [newCourseLimiter]
  | POST_courses_sections => [newSectionLimiter]
  | POST_courses_sections_link => [newLinkLimiter]
  | POST_courses_sections_link_click => [newLinkLimiter]
  | POST_verify_create => [verifyLimiter; verifySpamLimiter]
  | POST_report => [reportLimiter]
  end.

Record Server : Type := {
  stores : Limiter -> MemoryStore;
  world : World
}.

Fixpoint through (ls : list Limiter) (req : Request) (sts : Limiter -> MemoryStore)
  : option Response * (Limiter -> MemoryStore) :=
  match ls with
  | [] => (None, sts)
  | l :: rest =>
      let '(r, st') := rateLimit (options l) (sts l) req in
      let sts' := fun l' => if decide (l' = l) then st' else sts l' in
      match r with
      | Some resp => (Some resp, sts')
      | None => through rest req sts'
      end
  end.

Section Serving.

Variable siteverify : string -> bool.
Variable mailer : string -> jsval -> deliveryOutcome.

Definition handler (r : Route) : Request -> Task Response :=
  match r with
  | POST_courses => post_courses siteverify
  | POST_courses_sections => post_sections siteverify
  | POST_courses_sections_link => post_link
  | POST_courses_sections_link_click => post_link_click
  | POST_verify_create => post_verify_create siteverify mailer
  | POST_report => post_report siteverify
  end.

(** One request served alone: through the route's limiters, then the
    handler. *)
Definition serve (r : Route) (req : Request) (sv : Server) : Response * Server :=
  let '(rejected, sts) := through (middleware r) req (stores sv) in
  match rejected with
  | Some resp => (resp, {| stores := sts; world := world sv |})
  | None =>
      let '(resp, w) := run (handler r req) (world sv) in
      (resp, {| stores := sts; world := w |})
  end.

(** Requests served one after the other; the responses in order. *)
Fixpoint serve_all (rs : list (Route * Request)) (sv : Server)
  : list Response * Server :=
  match rs with
  | [] => ([], sv)
  | (r, req) :: rest =>
      let '(resp, sv') := serve r req sv in
      let '(resps, sv'') := serve_all rest sv' in
      (resp :: resps, sv'')
  end.

End Serving.

(** A server just started at clock [t0]: empty tables, each due for its
    first reset one window later. *)
Definition fresh_stores (t0 : Z) : Limiter -> MemoryStore :=
  fun l => {| hits := ∅; resetTime := t0 + windowMs (options l) |}.

Definition empty_World : World :=
  {| Courses := []; Reports := []; verifier := ∅; outbox := [] |}.

(** ** Vocabulary of the statements *)

Definition with_body (b : Body) (req : Request) : Request :=
  {| param_code := param_code req; param_section := param_section req; body := b;
     ip := ip req; remoteAddress := remoteAddress req; now := now req; nonce := nonce req |}.

(** line 367: the fields link creation requires *)
Definition required_fields (req : Request) : bool :=
  nonempty (toUpperCase (trim (param_code req))) && nonempty (param_section req)
  && truthy (get (body req) "type") && truthy (get (body req) "url")
  && truthy (get (body req) "terms") && truthy (get (body req) "username")
  && truthy (get (body req) "code").

(** What a chain of limiters answers to a sequence of requests ([None]: the
    request goes on to its handler). *)
Fixpoint through_each (ls : list Limiter) (reqs : list Request)
         (sts : Limiter -> MemoryStore) : list (option Response) :=
  match reqs with
  | [] => []
  | req :: rest =>
      let '(r, sts') := through ls req sts in r :: through_each ls rest sts'
  end.


(** the captcha token is absent (falsy) or the captcha service rejects it *)
Definition captcha_fails (siteverify : string -> bool) (b : Body) : Prop :=
  truthy (get b "captcha") = false \/ siteverify (String_ (get b "captcha")) = false.

(** Concrete collaborators and documents for the examples. *)
Module Fixture.

(** a captcha service that accepts exactly the token "human" *)
Definition human (token : string) : bool := String.eqb token "human".

(** a mail provider that accepts everything *)
Definition delivers (_ : string) (_ : jsval) : deliveryOutcome := accepted.

Definition request (code section : string) (fields : list (string * jsval))
           (caller : string) (clock : Z) (fresh : jsval) : Request :=
  {| param_code := code; param_section := section; body := list_to_map fields;
     ip := caller; remoteAddress := JStr caller; now := clock; nonce := fresh |}.

Definition course (code : string) (sections : list SectionDoc) : CourseDoc :=
  {| course_code := code; course_name := "Net-centric Computing";
     course_faculty := "LE"; course_subject := "EECS"; course_number := "1012";
     course_credits := "3.00"; course_sections := sections |}.

Definition link (url : string) (clicks : Z) : LinkDoc :=
  {| link_type := "discord"; link_url := url; link_clicks := clicks;
     link_createdAt := 0; link_updatedAt := 0 |}.

Definition sec (name : string) (links : list LinkDoc) : SectionDoc :=
  {| section_name := name; section_links := links |}.

Definition issued (username : string) (code : jsval) (clock : Z)
  : gmap string VerificationRecord :=
  {[ username := {| issued_code := code; issued_at := clock |} ]}.

End Fixture.

(** every course's sections bear pairwise different names *)
Definition unique_section_names (w : World) : Prop :=
  Forall (fun c => NoDup (map section_name (course_sections c))) (Courses w).

(** what a click must leave alone: which courses, sections and urls exist *)
Definition skeleton (w : World) : list (string * list (string * list string)) :=
  map (fun c => (course_code c,
                 map (fun s => (section_name s, map link_url (section_links s)))
                     (course_sections c)))
      (Courses w).

(** ** Course search ([GET /courses])

    The query string is read as strings: [q] and [l] are a string or
    missing. *)

(** the characters of [regex], [/[/\-\\^$*+?.()|[\]{}]/g] *)
Definition regex (c : ascii) : bool :=
  existsb (Ascii.eqb c) (list_ascii_of_string "/-\^$*+?.()|[]{}").

(** [escapeRegex]: [string.replace(regex, '\\$&')], a backslash put before
    every match *)
Fixpoint escapeRegex (s : string) : string :=
  match s with
  | EmptyString => EmptyString
  | String c s' =>
      if regex c then String "\" (String c (escapeRegex s'))
      else String c (escapeRegex s')
  end.

(** [s.replace(pat, by)] with a string pattern of one character: the first
    occurrence only *)
Fixpoint replace (pat : ascii) (by_ : string) (s : string) : string :=
  match s with
  | EmptyString => EmptyString
  | String c s' => if Ascii.eqb c pat then by_ +:+ s' else String c (replace pat by_ s')
  end.

(** [s.startsWith(p)] *)
Fixpoint startsWith (p s : string) : bool :=
  match p, s with
  | EmptyString, _ => true
  | String a p', String b s' => Ascii.eqb a b && startsWith p' s'
  | String _ _, EmptyString => false
  end.

(** [s.includes(p)] *)
Fixpoint includes (p s : string) : bool :=
  startsWith p s
  || match s with
     | EmptyString => false
     | String _ s' => includes p s'
     end.

(** The text a pattern stands for when each of its metacharacters is
    escaped: a backslash makes the next character literal, any other
    character stands for itself.  A pattern with a bare metacharacter or a
    trailing backslash is not of that kind ([None]). *)
Fixpoint literal_of (pattern : string) : option string :=
  match pattern with
  | EmptyString => Some EmptyString
  | String c p' =>
      if Ascii.eqb c "\" then
        match p' with
        | EmptyString => None
        | String d p'' => option_map (String d) (literal_of p'')
        end
      else if regex c then None
      else option_map (String c) (literal_of p')
  end.

(** [{ $regex: pattern, $options: 'i' }] on a string path, for the patterns
    [literal_of] reads: the text occurs in the value, letter case aside.
    Other patterns are outside the model and match nothing. *)
Definition regex_i (pattern value : string) : bool :=
  match literal_of pattern with
  | Some text => includes (toUpperCase text) (toUpperCase value)
  | None => false
  end.

Definition digit (c : ascii) : option Z :=
  let n := Z.of_N (N_of_ascii c) in
  if (48 <=? n) && (n <=? 57) then Some (n - 48)
  else if (97 <=? n) && (n <=? 122) then Some (n - 87)
  else if (65 <=? n) && (n <=? 90) then Some (n - 55)
  else None.

(** the longest run of digits of the radix at the head of [s], read as a
    number; [acc] is what was read so far ([None]: nothing yet) *)
Fixpoint digits (radix : Z) (acc : option Z) (s : string) : option Z :=
  match s with
  | EmptyString => acc
  | String c s' =>
      match digit c with
      | Some d => if d <? radix then digits radix (Some (radix * default 0 acc + d)) s'
                  else acc
      | None => acc
      end
  end.

(** the integer a numeral denotes, as [parseInt] without a radix reads it:
    white space, a sign, an optional 0x, the longest run of digits; [None]
    when no digit is found *)
Definition mathInt (s : string) : option Z :=
  let s := trimStart s in
  let '(sign, s) :=
    match s with
    | String "-" s' => (-1, s')
    | String "+" s' => (1, s')
    | _ => (1, s)
    end in
  let '(radix, s) :=
    match s with
    | String "0" (String "x" s') => (16, s')
    | String "0" (String "X" s') => (16, s')
    | _ => (10, s)
    end in
  option_map (Z.mul sign) (digits radix None s).

(** the double nearest to an integer, ties to the even mantissa: an integer
    of magnitude below 2^53 is its own double, a larger one keeps 53
    significant bits *)
Definition to_double (m : Z) : Z :=
  let a := Z.abs m in
  if a <? 2 ^ 53 then m
  else
    let k := Z.log2 a - 52 in
    let q := a / 2 ^ k in
    let r := a mod 2 ^ k in
    let half := 2 ^ (k - 1) in
    let q' := if r <? half then q
              else if half <? r then q + 1
              else if Z.even q then q else q + 1 in
    Z.sgn m * (q' * 2 ^ k).

(** [parseInt(s)] without a radix: the Number value of the integer read;
    [None] is NaN.  (From 2^1024 on the Number is Infinity, which the
    integers here do not hold.) *)
Definition parseInt (s : string) : option Z := option_map to_double (mathInt s).

(** [parseInt(req.query.l) || 0]; a missing [l] is read as "undefined" *)
Definition limit_of (l : option string) : Z :=
  match parseInt (default "undefined" l) with
  | Some n => if n =? 0 then 0 else n
  | None => 0
  end.

(** the projection ["-_id name faculty subject number credits"] *)
Record CourseSummary : Type := {
  summary_name : string;
  summary_faculty : string;
  summary_subject : string;
  summary_number : string;
  summary_credits : string
}.

Definition summary (c : CourseDoc) : CourseSummary :=
  {| summary_name := course_name c; summary_faculty := course_faculty c;
     summary_subject := course_subject c; summary_number := course_number c;
     summary_credits := course_credits c |}.

(** the filter [property] of the search: no condition without a query,
    otherwise [$or] of the name and the code against the escaped query *)
Definition search_property (q : option string) (c : CourseDoc) : bool :=
  match q with
  | Some q =>
      if nonempty q then
        regex_i (escapeRegex q) (course_name c)
        || regex_i (escapeRegex (replace " " "" q)) (course_code c)
      else true
  | None => true
  end.

(** [Course.find(filter, projection, { limit })]: the matching documents in
    collection order, all of them for limit 0, otherwise as many as the
    limit's magnitude. *)
Definition Course_find (filter : CourseDoc -> bool) (limit : Z)
  : World -> list CourseSummary * World :=
  fun w =>
    let found := map summary (List.filter filter (Courses w)) in
    (if limit =? 0 then found else firstn (Z.to_nat (Z.abs limit)) found, w).

(** [app.get("/courses", ...)]: the array sent back *)
Definition get_courses (q l : option string) : Task (list CourseSummary) :=
  Await (Course_find (search_property q) (limit_of l)) (fun courses => Done courses).

(** how many of the first [i] requests bear the key [key] under [o] *)
Definition earlier_hits (o : RateLimit) (reqs : list Request) (i : nat) (key : string) : Z :=
  Z.of_nat (length (List.filter (fun r => String.eqb (keyGenerator o r) key) (firstn i reqs))).

(** the urls of all links of a course, section by section *)
Definition course_urls (c : CourseDoc) : list string :=
  concat (map (fun s => map link_url (section_links s)) (course_sections c)).

(** no url occurs twice among the links of one course *)
Definition unique_urls (w : World) : Prop :=
  Forall (fun c => NoDup (course_urls c)) (Courses w).

(** a task that takes worlds with unique section names and urls to such
    worlds *)
Definition keeps_store (t : Task Response) : Prop :=
  forall w, unique_section_names w /\ unique_urls w ->
            unique_section_names (snd (run t w)) /\ unique_urls (snd (run t w)).

Definition sum_Z (l : list Z) : Z := fold_right Z.add 0 l.

Definition course_clicks (c : CourseDoc) : Z :=
  sum_Z (map (fun s => sum_Z (map link_clicks (section_links s))) (course_sections c)).

(** the clicks of all links of all courses *)
Definition total_clicks (w : World) : Z := sum_Z (map course_clicks (Courses w)).

(** the filter of the click update, line 409 *)
Definition click_filter (req : Request) (c : CourseDoc) : bool :=
  Mongo.code_is (toUpperCase (trim (param_code req))) c
  && Mongo.sections_name_is (param_section req) c
  && Mongo.sections_links_url_is (String_ (get (body req) "url")) c.

Definition with_param_code (code : string) (req : Request) : Request :=
  {| param_code := code; param_section := param_section req; body := body req;
     ip := ip req; remoteAddress := remoteAddress req; now := now req; nonce := nonce req |}.

(** the search as a user reads it: the query, letter case aside, occurs in
    the name, or, its first space dropped, in the code *)
Definition matches_query (q : string) (c : CourseDoc) : bool :=
  includes (toUpperCase q) (toUpperCase (course_name c))
  || includes (toUpperCase (replace " " "" q)) (toUpperCase (course_code c)).

(** the value of a decimal numeral read left to right from [acc] *)
Fixpoint numeral_value (d : Decimal.uint) (acc : Z) : Z :=
  match d with
  | Decimal.Nil => acc
  | Decimal.D0 d => numeral_value d (10 * acc)
  | Decimal.D1 d => numeral_value d (10 * acc + 1)
  | Decimal.D2 d => numeral_value d (10 * acc + 2)
  | Decimal.D3 d => numeral_value d (10 * acc + 3)
  | Decimal.D4 d => numeral_value d (10 * acc + 4)
  | Decimal.D5 d => numeral_value d (10 * acc + 5)
  | Decimal.D6 d => numeral_value d (10 * acc + 6)
  | Decimal.D7 d => numeral_value d (10 * acc + 7)
  | Decimal.D8 d => numeral_value d (10 * acc + 8)
  | Decimal.D9 d => numeral_value d (10 * acc + 9)
  end.

(** the decimal digits, and strings that start with one (or are empty) *)
Definition is_digit (c : ascii) : bool :=
  let n := Z.of_N (N_of_ascii c) in (48 <=? n) && (n <=? 57).

Definition head_is_digit (s : string) : bool :=
  match s with
  | EmptyString => true
  | String c _ => is_digit c
  end.

(** the status issuance answers with, by delivery outcome *)
Definition delivery_status (o : deliveryOutcome) : Z :=
  match o with
  | accepted => CREATED
  | invalidAddress => UNPROCESSABLE
  | providerFailure => SERVER_ERROR
  end.

(** strings of ASCII characters only (code points below 128) *)
Definition is_ascii (s : string) : bool :=
  forallb (fun c => (N_of_ascii c <? 128)%N) (list_ascii_of_string s).

(** the body carries neither a [sections] nor a [links] field: the
    documents made of it ([Course.create(req.body)], [new Section(req.body)])
    start with no sections and no links *)
Definition no_nested_documents (b : Body) : Prop :=
  b !! "sections" = None /\ b !! "links" = None.

(** two link-creation requests for the same course, section and url *)
Definition same_target (req other : Request) : Prop :=
  toUpperCase (trim (param_code other)) = toUpperCase (trim (param_code req))
  /\ param_section other = param_section req
  /\ String_ (get (body other) "url") = String_ (get (body req) "url").

(** a link-creation request that gets past the guard and the verifier
    (lines 363 to 377) in a world: its username normalizes, its required
    fields are present, and the verifier holds a live record of its
    identity with the code it carries *)
Definition passes_verification (req : Request) (w : World) : Prop :=
  exists username,
    normalized_username (body req) = Some username
    /\ required_fields req = true
    /\ Verifier.hasCode (verifier w) (now req) username = true
    /\ Verifier.checkCode (verifier w) (now req) username (get (body req) "code") = true.

(** the push of a created link, lines 384 to 387 *)
Definition link_push (req : Request) (cs : list CourseDoc) : list CourseDoc :=
  Mongo.update_first
    (fun c => Mongo.code_is (toUpperCase (trim (param_code req))) c
              && Mongo.sections_name_is (param_section req) c)
    (Mongo.push_sections_links (param_section req) (new_Link (body req) (now req))) cs.

(** * Properties *)

Lemma get_insert_eq (b : Body) (k : string) (v : jsval) : get (<[k := v]> b) k = v.
Proof. unfold get. by rewrite lookup_insert_eq. Qed.

Lemma get_insert_ne (b : Body) (k k' : string) (v : jsval) :
  k <> k' -> get (<[k := v]> b) k' = get b k'.
Proof. intros H. unfold get. by rewrite lookup_insert_ne. Qed.

Lemma jsval_eqb_eq (a b : jsval) : jsval_eqb a b = true <-> a = b.
Proof.
  destruct a, b; simpl; split; intros H; try congruence; try reflexivity.
  - f_equal. by apply Bool.eqb_prop.
  - injection H as ->. apply Bool.eqb_reflx.
  - f_equal. by apply Z.eqb_eq.
  - injection H as ->. apply Z.eqb_refl.
  - f_equal. by apply String.eqb_eq.
  - injection H as ->. apply String.eqb_refl.
Qed.

Lemma or_else_truthy (a b : jsval) : truthy a = true -> or_else a b = a.
Proof. intros H. unfold or_else. by rewrite H. Qed.

Ltac run_step :=
  simpl; unfold verifyReCaptcha, sendCode, Mongo.findOne, Mongo.findOneAndUpdate,
         Mongo.create_Course, Mongo.create_Report; simpl.

(** ** Section creation under concurrent requests *)

(** C1 (the code departs from the claim).  Section creation is a [findOne]
    followed by a separate [findOneAndUpdate], not one conditional update:
    when two identical requests for an existing course are in flight and
    both duplicate checks complete before either push, both are answered
    201 and the course ends up with two sections of the same name. *)
Theorem section_creation_race_duplicates :
  let req := Fixture.request "eecs1012" ""
               [("name", JStr "A"); ("captcha", JStr "human")] "10.0.0.1" 0 JUndef in
  let w0 := set_Courses [Fixture.course "EECS1012" []] empty_World in
  let '(pool, w) := schedule [0; 1; 0; 1; 0; 1]%nat
                             [post_sections Fixture.human req; post_sections Fixture.human req]
                             w0 in
  map finished pool = [Some (json CREATED (echo (body req)));
                       Some (json CREATED (echo (body req)))]
  /\ map (fun c => map section_name (course_sections c)) (Courses w) = [["A"; "A"]].
Proof. vm_compute. split; reflexivity. Qed.

(** ** The captcha gate *)

Section CaptchaGate.

Variable siteverify : string -> bool.
Variable mailer : string -> jsval -> deliveryOutcome.

Lemma post_courses_captcha req w :
  captcha_fails siteverify (body req) -> run (post_courses siteverify req) w = (bad_request, w).
Proof.
  intros [H | H]; unfold post_courses.
  - by rewrite H, andb_false_r.
  - destruct (_ && _); [| done]. run_step. by rewrite H.
Qed.

Lemma post_sections_captcha req w :
  captcha_fails siteverify (body req) -> run (post_sections siteverify req) w = (bad_request, w).
Proof.
  intros [H | H]; unfold post_sections.
  - by rewrite H, andb_false_r.
  - destruct (_ && _); [| done]. run_step. by rewrite H.
Qed.

Lemma post_verify_create_captcha req w :
  captcha_fails siteverify (body req) ->
  run (post_verify_create siteverify mailer req) w = (bad_request, w).
Proof.
  intros [H | H]; unfold post_verify_create.
  - by rewrite H, andb_false_r.
  - destruct (_ && _); [| done]. run_step. by rewrite H.
Qed.

Lemma post_report_captcha req w :
  captcha_fails siteverify (body req) -> run (post_report siteverify req) w = (bad_request, w).
Proof.
  intros [H | H]; unfold post_report.
  - by rewrite H, andb_false_r.
  - destruct (_ && _); [| done]. run_step. by rewrite H.
Qed.

(** Link creation never looks at the captcha field. *)
Lemma post_link_captcha_blind req v w :
  let req' := with_body (<["captcha" := v]> (body req)) req in
  status_of (fst (run (post_link req') w)) = status_of (fst (run (post_link req) w))
  /\ snd (run (post_link req') w) = snd (run (post_link req) w).
Proof.
  intros req'. subst req'. unfold post_link, link_store, new_Link. simpl.
  rewrite !get_insert_ne by done.
  unfold normalized_username. rewrite !get_insert_ne by done.
  destruct (method_replaceAll _ _ _); [| by split].
  destruct (_ && _); [| by split].
  simpl. destruct (Verifier.hasCode _ _ _); [| by split].
  simpl. destruct (Verifier.checkCode _ _ _ _); [| by split].
  run_step. destruct (List.find _ _); [by split |].
  run_step. destruct (List.find _ _); by split.
Qed.

(** C2 (amended).  Course creation, section creation, verification
    issuance and report submission answer 400 and leave the world as it
    was whenever the captcha token is absent or the captcha check fails.
    Link creation makes no captcha check: neither its status nor its
    effect depends on the captcha field of the body. *)
Theorem captcha_gate req w :
  captcha_fails siteverify (body req) ->
  run (post_courses siteverify req) w = (bad_request, w)
  /\ run (post_sections siteverify req) w = (bad_request, w)
  /\ run (post_verify_create siteverify mailer req) w = (bad_request, w)
  /\ run (post_report siteverify req) w = (bad_request, w)
  /\ (forall v,
        let req' := with_body (<["captcha" := v]> (body req)) req in
        status_of (fst (run (post_link req') w)) = status_of (fst (run (post_link req) w))
        /\ snd (run (post_link req') w) = snd (run (post_link req) w)).
Proof.
  intros H. split; [| split; [| split; [| split]]].
  - by apply post_courses_captcha.
  - by apply post_sections_captcha.
  - by apply post_verify_create_captcha.
  - by apply post_report_captcha.
  - intros v. apply post_link_captcha_blind.
Qed.

End CaptchaGate.

(** C2, witness: a body without a captcha field, against a service that
    would accept the token "human". *)
Lemma captcha_gate_witness :
  let req := Fixture.request "EECS1012" "A"
               [("name", JStr "B"); ("username", JStr "alice")] "10.0.0.1" 0 JUndef in
  captcha_fails Fixture.human (body req)
  /\ run (post_sections Fixture.human req) empty_World = (bad_request, empty_World).
Proof.
  split.
  - left. reflexivity.
  - apply (captcha_gate Fixture.human Fixture.delivers
             (Fixture.request "EECS1012" "A"
                [("name", JStr "B"); ("username", JStr "alice")] "10.0.0.1" 0 JUndef)
             empty_World).
    left. reflexivity.
Defined.

(** C2, counterexample: a link-creation request with no captcha token at
    all, carrying a matching one-time code, is answered 201 and the link is
    stored. *)
Lemma link_creation_without_captcha :
  let req := Fixture.request "eecs1012" "A"
               [("type", JStr "discord"); ("url", JStr "https://discord.gg/x");
                ("terms", JBool true); ("username", JStr "alice"); ("code", JStr "123456")]
               "10.0.0.1" 1000 JUndef in
  let w0 := set_verifier (Fixture.issued "alice" (JStr "123456") 0)
              (set_Courses [Fixture.course "EECS1012" [Fixture.sec "A" []]] empty_World) in
  truthy (get (body req) "captcha") = false
  /\ status_of (fst (run (post_link req) w0)) = Some CREATED
  /\ Courses (snd (run (post_link req) w0))
     = [Fixture.course "EECS1012"
          [Fixture.sec "A" [new_Link (body req) 1000]]]
  /\ Courses (snd (run (post_link req) w0)) <> Courses w0.
Proof. vm_compute. repeat split; try reflexivity. discriminate. Qed.

(** ** Course creation *)

(** C3 (the code departs from the claim).  The duplicate lookup of course
    creation uses the concatenated fields as sent, while the stored code is
    their uppercase, trimmed form: with "LEEECS10123.00" stored, the same
    course sent with subject "eecs" derives the same code, is not answered
    409, and is inserted a second time under that code. *)
Theorem course_creation_case_variant_duplicate :
  let fields subject := [("name", JStr "Net-centric Computing"); ("faculty", JStr "LE");
                         ("subject", JStr subject); ("number", JStr "1012");
                         ("credits", JStr "3.00"); ("captcha", JStr "human")] in
  let stored := new_Course (list_to_map (fields "EECS")) in
  let req := Fixture.request "" "" (fields "eecs") "10.0.0.1" 0 JUndef in
  let w0 := set_Courses [stored] empty_World in
  course_code stored = "LEEECS10123.00"
  /\ derived_code (body req) = course_code stored
  /\ fst (run (post_courses Fixture.human req) w0) = json CREATED (echo (body req))
  /\ map course_code (Courses (snd (run (post_courses Fixture.human req) w0)))
     = ["LEEECS10123.00"; "LEEECS10123.00"].
Proof. vm_compute. repeat split; reflexivity. Qed.

(** ** Link creation *)

(** C4 (the code departs from the claim).  The duplicate filter of link
    creation asks for a section with the given name and, separately, for
    any section holding the url: with the url stored under section "A"
    only, creating it under the empty section "B" of the same course is
    answered 409 and nothing is stored. *)
Theorem link_conflict_from_other_section :
  let url := "https://discord.gg/x" in
  let req := Fixture.request "eecs1012" "B"
               [("type", JStr "discord"); ("url", JStr url); ("terms", JBool true);
                ("username", JStr "alice"); ("code", JStr "123456")]
               "10.0.0.1" 1000 JUndef in
  let w0 := set_verifier (Fixture.issued "alice" (JStr "123456") 0)
              (set_Courses [Fixture.course "EECS1012"
                              [Fixture.sec "A" [Fixture.link url 0]; Fixture.sec "B" []]]
                           empty_World) in
  run (post_link req) w0 = (json CONFLICT (error "Link already exists."), w0).
Proof. vm_compute. reflexivity. Qed.

(** The verification part of link creation, case by case. *)
Section LinkGate.

Variables (req : Request) (w : World) (username : string).
Hypothesis Hname : normalized_username (body req) = Some username.

Let code := toUpperCase (trim (param_code req)).
Let section := param_section req.

Lemma post_link_missing_field :
  required_fields req = false -> post_link req = Done bad_request.
Proof.
  intros H. unfold post_link. rewrite Hname.
  unfold required_fields in H. by rewrite H.
Qed.

Lemma post_link_required :
  required_fields req = true ->
  run (post_link req) w
  = if Verifier.hasCode (verifier w) (now req) username then
      if Verifier.checkCode (verifier w) (now req) username (get (body req) "code")
      then run (link_store req code section) w
      else (json UNAUTHORIZED (error "Email code does not match records. Unauthorized!"), w)
    else (json GONE (error "Email code expired. Refresh the page."), w).
Proof.
  intros H. unfold post_link. rewrite Hname.
  unfold required_fields in H. rewrite H.
  apply andb_prop in H as [_ Hcode]. rewrite (or_else_truthy _ _ Hcode).
  simpl. destruct (Verifier.hasCode _ _ _); [| done].
  simpl. by destruct (Verifier.checkCode _ _ _ _).
Qed.

End LinkGate.

Lemma hasCode_live (tbl : gmap string VerificationRecord) clock username r :
  tbl !! username = Some r -> Verifier.live r clock = true ->
  Verifier.hasCode tbl clock username = true.
Proof. intros H1 H2. unfold Verifier.hasCode. by rewrite H1. Qed.

Lemma checkCode_spec (tbl : gmap string VerificationRecord) clock username supplied :
  Verifier.checkCode tbl clock username supplied = true
  <-> exists r, tbl !! username = Some r /\ Verifier.live r clock = true
                /\ issued_code r = supplied.
Proof.
  unfold Verifier.checkCode. destruct (tbl !! username) as [r |]; split.
  - intros [H1 H2]%andb_prop. exists r. by rewrite <- jsval_eqb_eq.
  - intros (r' & [= <-] & H1 & H2). rewrite H1. simpl. by apply jsval_eqb_eq.
  - discriminate.
  - by intros (r' & ? & _).
Qed.

(** C5 (the code departs from the claim).  A username that is truthy and
    not a string (here the number 5 and [true]) has no [replaceAll]:
    line 363 throws before the try block is entered.  Such a request with
    required fields missing is not answered 400, and such a request with
    every required field present and no verification record for any
    identity is not answered 410: no answer is written at all.  The same
    two requests with a string username get the 400 and the 410. *)
Theorem link_creation_non_string_username :
  let missing u := Fixture.request "eecs1012" "A" [("username", u)] "10.0.0.1" 0 JUndef in
  let complete u := Fixture.request "eecs1012" "A"
                      [("type", JStr "discord"); ("url", JStr "https://discord.gg/x");
                       ("terms", JBool true); ("username", u); ("code", JStr "123456")]
                      "10.0.0.1" 0 JUndef in
  (required_fields (missing (JNum 5)) = false
   /\ fst (run (post_link (missing (JNum 5))) empty_World) = unhandledRejection
   /\ fst (run (post_link (missing (JStr "5"))) empty_World) = bad_request)
  /\ (required_fields (complete (JBool true)) = true
      /\ verifier empty_World = empty
      /\ fst (run (post_link (complete (JBool true))) empty_World) = unhandledRejection
      /\ fst (run (post_link (complete (JStr "true"))) empty_World)
         = json GONE (error "Email code expired. Refresh the page.")).
Proof. by vm_compute. Qed.

(** X5.  A username that is neither falsy nor a string (a number, [true])
    has no [replaceAll]: line 363 throws before the try block is entered,
    and the handler writes no response, whatever the other fields and the
    world are.  What becomes of the process and of its in-memory tables
    after the unhandled rejection is not modelled. *)
Theorem post_link_username_not_a_string (req : Request) (w : World) :
  truthy (get (body req) "username") = true ->
  (forall s, get (body req) "username" <> JStr s) ->
  fst (run (post_link req) w) = unhandledRejection.
Proof.
  intros Ht Hs. unfold post_link, normalized_username. rewrite (or_else_truthy _ _ Ht).
  destruct (get (body req) "username") as [| | b | n | s]; try done.
  by destruct (Hs s).
Qed.

(** X5, witness: the username 5. *)
Lemma post_link_username_not_a_string_witness :
  let req := Fixture.request "eecs1012" "A" [("username", JNum 5)] "10.0.0.1" 0 JUndef in
  fst (run (post_link req) empty_World) = unhandledRejection.
Proof.
  intros req. apply (post_link_username_not_a_string req empty_World); [reflexivity |].
  intros s. discriminate.
Defined.

(** X20.  For a link-creation request whose username is absent, falsy or
    a string, so that line 363 normalizes it to [username]: when a
    required field is missing the handler is the
    finished task answering 400 (no step reads the verifier or the store);
    with every required field present it answers 410 when the verifier
    holds no live record for [username], 401 when it holds a live record
    with a different code, and does what the store part does when the code
    is the stored one.  On 400, 410 and 401 the world is unchanged, and the
    world changes only when a live record with the supplied code exists. *)
Theorem link_creation_verification_gate (req : Request) (w : World) (username : string) :
  normalized_username (body req) = Some username ->
  (required_fields req = false ->
   post_link req = Done bad_request /\ run (post_link req) w = (bad_request, w))
  /\ (required_fields req = true ->
      (Verifier.hasCode (verifier w) (now req) username = false ->
       run (post_link req) w
       = (json GONE (error "Email code expired. Refresh the page."), w))
      /\ (forall r, verifier w !! username = Some r -> Verifier.live r (now req) = true ->
                    issued_code r <> get (body req) "code" ->
          run (post_link req) w
          = (json UNAUTHORIZED (error "Email code does not match records. Unauthorized!"), w))
      /\ (forall r, verifier w !! username = Some r -> Verifier.live r (now req) = true ->
                    issued_code r = get (body req) "code" ->
          run (post_link req) w
          = run (link_store req (toUpperCase (trim (param_code req))) (param_section req)) w))
  /\ (snd (run (post_link req) w) <> w ->
      exists r, verifier w !! username = Some r /\ Verifier.live r (now req) = true
                /\ issued_code r = get (body req) "code").
Proof.
  intros Hname. split; [| split].
  - intros H. rewrite (post_link_missing_field req username Hname H). by split.
  - intros H. pose proof (post_link_required req w username Hname H) as Hrun.
    split; [| split].
    + intros Hhas. by rewrite Hrun, Hhas.
    + intros r Hr Hlive Hneq. rewrite Hrun, (hasCode_live _ _ _ _ Hr Hlive).
      destruct (Verifier.checkCode _ _ _ _) eqn:Hc; [| done].
      apply checkCode_spec in Hc as (r' & Hr' & _ & Heq). congruence.
    + intros r Hr Hlive Heq. rewrite Hrun, (hasCode_live _ _ _ _ Hr Hlive).
      assert (Verifier.checkCode (verifier w) (now req) username (get (body req) "code") = true)
        as ->; [| done].
      apply checkCode_spec. by exists r.
  - intros Hchg. destruct (required_fields req) eqn:H.
    + rewrite (post_link_required req w username Hname H) in Hchg.
      destruct (Verifier.hasCode _ _ _); [| done].
      destruct (Verifier.checkCode _ _ _ _) eqn:Hc; [| done].
      by apply checkCode_spec in Hc.
    + rewrite (post_link_missing_field req username Hname H) in Hchg. done.
Qed.

(** X20, witness: alice holds the live code "123456"; a request without a
    url, one from bob (no record), one with a wrong code, one with the
    right code. *)
Lemma link_creation_verification_gate_witness :
  let fields user code := [("type", JStr "discord"); ("url", JStr "https://discord.gg/x");
                           ("terms", JBool true); ("username", JStr user);
                           ("code", JStr code)] in
  let w0 := set_verifier (Fixture.issued "alice" (JStr "123456") 0)
              (set_Courses [Fixture.course "EECS1012" [Fixture.sec "A" []]] empty_World) in
  let at_A fs := Fixture.request "eecs1012" "A" fs "10.0.0.1" 1000 JUndef in
  run (post_link (at_A [("username", JStr "alice"); ("code", JStr "123456")])) w0
  = (bad_request, w0)
  /\ run (post_link (at_A (fields "bob" "123456"))) w0
     = (json GONE (error "Email code expired. Refresh the page."), w0)
  /\ run (post_link (at_A (fields "alice@" "654321"))) w0
     = (json UNAUTHORIZED (error "Email code does not match records. Unauthorized!"), w0)
  /\ status_of (fst (run (post_link (at_A (fields "alice" "123456"))) w0)) = Some CREATED.
Proof.
  intros fields w0 at_A. split; [| split; [| split]].
  - apply (link_creation_verification_gate
             (at_A [("username", JStr "alice"); ("code", JStr "123456")]) w0 "alice");
      reflexivity.
  - apply (link_creation_verification_gate (at_A (fields "bob" "123456")) w0 "bob");
      reflexivity.
  - apply (proj1 (proj2 (proj1 (proj2 (link_creation_verification_gate
             (at_A (fields "alice@" "654321")) w0 "alice" eq_refl)) eq_refl))
             {| issued_code := JStr "123456"; issued_at := 0 |});
      [reflexivity | reflexivity | discriminate].
  - rewrite (proj2 (proj2 (proj1 (proj2 (link_creation_verification_gate
             (at_A (fields "alice" "123456")) w0 "alice" eq_refl)) eq_refl))
             {| issued_code := JStr "123456"; issued_at := 0 |});
      reflexivity.
Defined.

(** ** Verification issuance *)

(** X4.  Inside the window the already-sent path is taken, provided the age
    the verifier reports is not zero: the request is answered 201, nothing
    is issued, nothing is sent, the world is as before. *)
Theorem post_verify_create_already_sent (siteverify : string -> bool)
        (mailer : string -> jsval -> deliveryOutcome) (req : Request) (w : World)
        (username : string) (age : Q) :
  truthy (get (body req) "username") = true ->
  truthy (get (body req) "captcha") = true ->
  siteverify (String_ (get (body req) "captcha")) = true ->
  method_replaceAll "@" "" (get (body req) "username") = Some username ->
  Verifier.checkCodeTime (verifier w) (now req) username = Some age ->
  Qeq_bool age 0 = false ->
  Qle_bool (15 # 1)%Q age = false ->
  run (post_verify_create siteverify mailer req) w = (json CREATED (echo (body req)), w).
Proof.
  intros Hu Hc Hv Hn Hage Hnz Hlt. unfold post_verify_create.
  rewrite Hu, Hc. run_step. rewrite Hv, Hn. run_step. rewrite Hage.
  unfold within_cooldown. by rewrite Hnz, Hlt.
Qed.

(** X4, witness: alice asks again one minute after her code was issued. *)
Lemma post_verify_create_already_sent_witness :
  let req := Fixture.request "" "" [("username", JStr "alice"); ("captcha", JStr "human")]
               "10.0.0.2" 65000 (JStr "222222") in
  let w0 := set_verifier (Fixture.issued "alice" (JStr "111111") 5000) empty_World in
  run (post_verify_create Fixture.human Fixture.delivers req) w0
  = (json CREATED (echo (body req)), w0).
Proof.
  intros req w0.
  apply (post_verify_create_already_sent Fixture.human Fixture.delivers req w0
           "alice" (60000 # 60000)%Q); reflexivity.
Defined.

(** C6 (the code departs from the claim).  The cooldown test
    [codeTime && codeTime < 15] reads an age of zero as no age at all.
    alice was issued "111111" at clock 5000; a second issuance request for
    her handled at the same clock reading finds an age that is present and
    below the threshold, yet a new code "222222" replaces the stored one and
    is sent, and the code she first received no longer verifies. *)
Theorem issuance_at_age_zero_reissues :
  let req := Fixture.request "" "" [("username", JStr "alice"); ("captcha", JStr "human")]
               "10.0.0.2" 5000 (JStr "222222") in
  let w0 := set_verifier (Fixture.issued "alice" (JStr "111111") 5000) empty_World in
  let w1 := snd (run (post_verify_create Fixture.human Fixture.delivers req) w0) in
  Verifier.checkCodeTime (verifier w0) (now req) "alice" = Some (0 # 60000)%Q
  /\ fst (run (post_verify_create Fixture.human Fixture.delivers req) w0)
     = json CREATED (echo (body req))
  /\ verifier w1 !! "alice" = Some {| issued_code := JStr "222222"; issued_at := 5000 |}
  /\ outbox w1 = [("alice", JStr "222222")]
  /\ Verifier.checkCode (verifier w0) 6000 "alice" (JStr "111111") = true
  /\ Verifier.checkCode (verifier w1) 6000 "alice" (JStr "111111") = false.
Proof. vm_compute. repeat split; reflexivity. Qed.

(** ** Link clicks *)

(** C7 (the code departs from the claim).  The increment is addressed by the
    url alone: its array filters pick every section holding the url, not the
    section named in the route.  A click sent for section "B", which holds
    no link, increments the link stored under "A"; with the url under both
    "A" and "B", a click sent for "A" increments both counters. *)
Theorem click_increments_other_section :
  let url := "https://discord.gg/x" in
  let click section := Fixture.request "eecs1012" section [("url", JStr url)]
                         "10.0.0.1" 0 JUndef in
  let stored sections := set_Courses [Fixture.course "EECS1012" sections] empty_World in
  run (post_link_click (click "B"))
      (stored [Fixture.sec "A" [Fixture.link url 0]; Fixture.sec "B" []])
  = (json CREATED (echo (body (click "B"))),
     stored [Fixture.sec "A" [Fixture.link url 1]; Fixture.sec "B" []])
  /\ run (post_link_click (click "A"))
         (stored [Fixture.sec "A" [Fixture.link url 0]; Fixture.sec "B" [Fixture.link url 7]])
     = (json CREATED (echo (body (click "A"))),
        stored [Fixture.sec "A" [Fixture.link url 1]; Fixture.sec "B" [Fixture.link url 8]]).
Proof. vm_compute. split; reflexivity. Qed.

(** C8 (the code departs from the claim).  The click route is registered
    with [newLinkLimiter] alone; [linkClicksLimiter] and
    [linkClicksLongLimiter] are defined and mounted nowhere.  Four clicks of
    one caller within four seconds are all answered 201, where the three
    tiers together would have answered the fourth with 429. *)
Theorem fourth_click_is_not_limited :
  let click t := (POST_courses_sections_link_click,
                  Fixture.request "eecs1012" "A" [("url", JStr "https://discord.gg/x")]
                                  "10.0.0.1" t JUndef) in
  let sv := {| stores := fresh_stores 0; world := empty_World |} in
  middleware POST_courses_sections_link_click = [newLinkLimiter]
  /\ (forall r, (linkClicksLimiter ∉ middleware r) /\ (linkClicksLongLimiter ∉ middleware r))
  /\ map status_of
         (fst (serve_all Fixture.human Fixture.delivers
                         [click 1000; click 2000; click 3000; click 4000] sv))
     = [Some 201; Some 201; Some 201; Some 201]
  /\ map (option_map status_of)
         (through_each [newLinkLimiter; linkClicksLimiter; linkClicksLongLimiter]
                       (map snd [click 1000; click 2000; click 3000; click 4000])
                       (fresh_stores 0))
     = [None; None; None; Some (Some 429)].
Proof.
  split; [reflexivity |]. split.
  - intros r. destruct r; split; intros Hin%list_elem_of_In; simpl in Hin;
      intuition discriminate.
  - split; vm_compute; reflexivity.
Qed.

(** ** Report submission *)

Lemma get_agree (b1 b2 : Body) (k : string) : b1 !! k = b2 !! k -> get b1 k = get b2 k.
Proof. unfold get. by intros ->. Qed.

(** C9.  Two report requests on the same connection at the same time whose
    bodies differ at most in a field "ip" or "origin" leave the same world
    behind, with the same status; and a report that is stored (201) is the
    one document appended to the collection, its origin the connection's
    remote address. *)
Theorem report_origin_from_connection (siteverify : string -> bool)
        (req1 req2 : Request) (w : World) :
  remoteAddress req1 = remoteAddress req2 ->
  now req1 = now req2 ->
  (forall k : string, k <> "ip" -> k <> "origin" -> body req1 !! k = body req2 !! k) ->
  snd (run (post_report siteverify req1) w) = snd (run (post_report siteverify req2) w)
  /\ status_of (fst (run (post_report siteverify req1) w))
     = status_of (fst (run (post_report siteverify req2) w))
  /\ (status_of (fst (run (post_report siteverify req1) w)) = Some CREATED ->
      exists r, Reports (snd (run (post_report siteverify req1) w)) = (Reports w ++ [r])%list
                /\ report_ip r = remoteAddress req1).
Proof.
  intros Hconn Hnow Hbody. unfold post_report, new_Report.
  rewrite !get_insert_eq, !get_insert_ne by done.
  rewrite <- Hconn, <- Hnow.
  rewrite <- !(get_agree (body req1) (body req2)) by (by apply Hbody).
  destruct (_ && _); [| by repeat split].
  run_step. destruct (siteverify _); [| by repeat split].
  run_step. split; [done |]. split; [done |]. intros _. by eexists.
Qed.

(** C9, witness: the same report sent once as is and once with a forged
    "ip" field. *)
Lemma report_origin_from_connection_witness :
  let fields := [("link_id", JStr "61f0c0ffee"); ("reason", JStr "spam");
                 ("captcha", JStr "human")] in
  let honest := Fixture.request "" "" fields "10.0.0.1" 0 JUndef in
  let forged := Fixture.request "" "" (("ip", JStr "127.0.0.1") :: fields) "10.0.0.1" 0 JUndef in
  snd (run (post_report Fixture.human honest) empty_World)
  = snd (run (post_report Fixture.human forged) empty_World)
  /\ map report_ip (Reports (snd (run (post_report Fixture.human forged) empty_World)))
     = [JStr "10.0.0.1"].
Proof.
  intros fields honest forged. split; [| reflexivity].
  apply (report_origin_from_connection Fixture.human honest forged empty_World);
    [reflexivity | reflexivity |].
  intros k Hip _. subst honest forged. unfold Fixture.request. simpl.
  symmetry. by apply lookup_insert_ne.
Defined.

(** ** Identity normalization *)

Lemma truthy_JStr (u : string) : u <> "" -> truthy (JStr u) = true.
Proof. intros H. simpl. by apply String.eqb_neq in H as ->. Qed.

Section SameIdentity.

Variable siteverify : string -> bool.
Variable mailer : string -> jsval -> deliveryOutcome.
Variables u1 u2 : string.
Hypothesis Hu1 : u1 <> "".
Hypothesis Hu2 : u2 <> "".
Hypothesis Hsame : replaceAll "@" "" u1 = replaceAll "@" "" u2.






End SameIdentity.



(** ** What holds of the handlers served one at a time *)

Lemma sections_name_is_false (name : string) (c : CourseDoc) :
  Mongo.sections_name_is name c = false -> name ∉ map section_name (course_sections c).
Proof.
  unfold Mongo.sections_name_is. intros H Hin.
  apply list_elem_of_In, in_map_iff in Hin as (s & Hs & Hin).
  assert (existsb (fun s => String.eqb (section_name s) name) (course_sections c) = true)
    as Ht; [| congruence].
  apply existsb_exists. exists s. split; [done |]. by apply String.eqb_eq.
Qed.

Lemma push_sections_unique (code name : string) (s : SectionDoc) (cs : list CourseDoc) :
  section_name s = name ->
  List.find (fun c => Mongo.code_is code c && Mongo.sections_name_is name c) cs = None ->
  Forall (fun c => NoDup (map section_name (course_sections c))) cs ->
  Forall (fun c => NoDup (map section_name (course_sections c)))
         (Mongo.update_first (Mongo.code_is code) (Mongo.push_sections s) cs).
Proof.
  intros Hs. induction cs as [| c cs IH]; intros Hfind Hall; [done |].
  simpl in Hfind. apply Forall_cons in Hall as [Hc Hcs]. simpl.
  destruct (Mongo.code_is code c) eqn:Hcode; simpl in Hfind.
  - destruct (Mongo.sections_name_is name c) eqn:Hname; [done |].
    apply Forall_cons. split; [| done]. simpl. rewrite map_app. simpl.
    apply NoDup_app. split; [done |]. split; [| apply NoDup_singleton].
    intros x Hx Hx'. apply list_elem_of_singleton in Hx'. subst x. rewrite Hs in Hx.
    by apply (sections_name_is_false name c).
  - apply Forall_cons. split; [done |]. by apply IH.
Qed.

(** X1.  Served alone, section creation keeps the names of every course's
    sections pairwise different: the duplicate check does its work as long
    as no other request comes between the check and the push. *)
Theorem post_sections_keeps_names_unique (siteverify : string -> bool)
        (req : Request) (w : World) :
  unique_section_names w ->
  unique_section_names (snd (run (post_sections siteverify req) w)).
Proof.
  intros Hw. unfold post_sections.
  destruct (_ && _); [| done].
  run_step. destruct (siteverify _); [| done].
  run_step. destruct (List.find _ _) eqn:Hfind; [done |].
  run_step.
  assert (unique_section_names
            (set_Courses (Mongo.update_first
                            (Mongo.code_is (toUpperCase (trim (param_code req))))
                            (Mongo.push_sections (new_Section (body req))) (Courses w)) w))
    as Hgoal.
  { unfold unique_section_names. simpl.
    by apply (push_sections_unique _ (String_ (get (body req) "name"))). }
  destruct (List.find (Mongo.code_is _) _); exact Hgoal.
Qed.

(** X1, witness: the second of two identical section creations. *)
Lemma post_sections_keeps_names_unique_witness :
  let req := Fixture.request "eecs1012" ""
               [("name", JStr "A"); ("captcha", JStr "human")] "10.0.0.1" 0 JUndef in
  let w0 := set_Courses [Fixture.course "EECS1012" [Fixture.sec "A" []]] empty_World in
  fst (run (post_sections Fixture.human req) w0)
  = json CONFLICT (error "Section already exists.")
  /\ unique_section_names (snd (run (post_sections Fixture.human req) w0)).
Proof.
  intros req w0. split; [reflexivity |].
  apply (post_sections_keeps_names_unique Fixture.human req w0).
  unfold unique_section_names. simpl. repeat constructor. by intros H%elem_of_nil.
Defined.

(** X2.  A validated course creation is answered 409 exactly when a stored
    course's code is the concatenation faculty+subject+number+credits as
    sent; otherwise the course is appended and the body echoed with 201. *)
Theorem post_courses_validated (siteverify : string -> bool) (req : Request) (w : World) :
  let b := body req in
  let sent := String_ (get b "faculty") +:+ String_ (get b "subject")
              +:+ String_ (get b "number") +:+ String_ (get b "credits") in
  truthy (get b "name") && truthy (get b "subject") && truthy (get b "number")
  && truthy (get b "faculty") && truthy (get b "credits") && truthy (get b "captcha") = true ->
  siteverify (String_ (get b "captcha")) = true ->
  (status_of (fst (run (post_courses siteverify req) w)) = Some CONFLICT
   <-> exists c, c ∈ Courses w /\ course_code c = sent)
  /\ ((forall c, c ∈ Courses w -> course_code c <> sent) ->
      run (post_courses siteverify req) w
      = (json CREATED (echo b), set_Courses (Courses w ++ [new_Course b]) w))
  /\ ((exists c, c ∈ Courses w /\ course_code c = sent) ->
      run (post_courses siteverify req) w
      = (json CONFLICT (error "Course already exists."), w)).
Proof.
  intros b sent Hf Hv. unfold post_courses. fold b. rewrite Hf. run_step. rewrite Hv.
  run_step. fold sent. destruct (List.find _ _) as [c |] eqn:Hfind; simpl.
  - apply List.find_some in Hfind as [Hin Hcode].
    apply list_elem_of_In in Hin. apply String.eqb_eq in Hcode.
    split; [| split]; [split | |]; try done.
    + intros _. by exists c.
    + intros Hnone. by destruct (Hnone c Hin).
  - assert (forall c, c ∈ Courses w -> course_code c <> sent) as Hnone.
    { intros c Hin%list_elem_of_In. pose proof (List.find_none _ _ Hfind c Hin) as Hn.
      by apply String.eqb_neq in Hn. }
    split; [| split]; [split | |]; try done.
    + intros (c & Hin & Hc). by destruct (Hnone c Hin).
    + intros (c & Hin & Hc). by destruct (Hnone c Hin).
Qed.

(** X2, witness: the same course created twice, fields as stored. *)
Lemma post_courses_validated_witness :
  let fields := [("name", JStr "Net-centric Computing"); ("faculty", JStr "LE");
                 ("subject", JStr "EECS"); ("number", JStr "1012");
                 ("credits", JStr "3.00"); ("captcha", JStr "human")] in
  let req := Fixture.request "" "" fields "10.0.0.1" 0 JUndef in
  let w1 := set_Courses [new_Course (body req)] empty_World in
  run (post_courses Fixture.human req) empty_World = (json CREATED (echo (body req)), w1)
  /\ run (post_courses Fixture.human req) w1
     = (json CONFLICT (error "Course already exists."), w1).
Proof.
  intros fields req w1. split.
  - apply (post_courses_validated Fixture.human req empty_World); [reflexivity .. |].
    by intros c Hc%elem_of_nil.
  - apply (post_courses_validated Fixture.human req w1); [reflexivity .. |].
    exists (new_Course (body req)). split; [apply list_elem_of_here | reflexivity].
Defined.

Lemma update_first_inc_clicks_skeleton (f : CourseDoc -> bool) (url : string)
      (cs : list CourseDoc) (w : World) :
  skeleton (set_Courses (Mongo.update_first f (Mongo.inc_clicks url) cs) w)
  = skeleton (set_Courses cs w).
Proof.
  unfold skeleton. simpl. induction cs as [| c cs IH]; [done |]. simpl.
  destruct (f c); simpl; [| by rewrite IH]. f_equal. f_equal.
  rewrite map_map. apply map_ext. intros s.
  destruct (existsb _ _); [| done]. simpl. f_equal.
  rewrite map_map. apply map_ext. intros l. by destruct (String.eqb _ _).
Qed.

(** X3.  A click is answered 400 when the url, the course code or the section is
    missing, and 201 with the body echoed otherwise, whether or not a link
    matched; it creates and removes nothing: the courses, their sections and
    the urls under them are as before, and so are the reports, the
    verifier's table and the mail log. *)
Theorem post_link_click_answer_and_frame (req : Request) (w : World) :
  let present := truthy (get (body req) "url")
                 && nonempty (toUpperCase (trim (param_code req)))
                 && nonempty (param_section req) in
  fst (run (post_link_click req) w)
  = (if present then json CREATED (echo (body req)) else bad_request)
  /\ skeleton (snd (run (post_link_click req) w)) = skeleton w
  /\ Reports (snd (run (post_link_click req) w)) = Reports w
  /\ verifier (snd (run (post_link_click req) w)) = verifier w
  /\ outbox (snd (run (post_link_click req) w)) = outbox w.
Proof.
  intros present. subst present. unfold post_link_click.
  destruct (_ && _); [| done]. run_step.
  split; [done |]. split; [| done].
  rewrite update_first_inc_clicks_skeleton. by destruct w.
Qed.

(** ** Course search *)

Lemma literal_of_escapeRegex (s : string) : literal_of (escapeRegex s) = Some s.
Proof.
  induction s as [| c s IH]; [done |]. simpl.
  destruct (regex c) eqn:Hc.
  - simpl. by rewrite IH.
  - simpl. destruct (Ascii.eqb c "\") eqn:Hb.
    + apply Ascii.eqb_eq in Hb. subst c. discriminate.
    + by rewrite Hc, IH.
Qed.

Lemma length_escapeRegex (s : string) :
  (String.length s <= String.length (escapeRegex s) <= 2 * String.length s)%nat.
Proof.
  induction s as [| c s IH]; simpl; [lia |].
  destruct (regex c); simpl; lia.
Qed.

Lemma escapeRegex_fixed (s : string) :
  escapeRegex s = s <-> forallb (fun c => negb (regex c)) (list_ascii_of_string s) = true.
Proof.
  induction s as [| c s IH]; simpl; [done |].
  destruct (regex c) eqn:Hc; simpl.
  - split; [| done]. intros H.
    pose proof (length_escapeRegex s) as Hl.
    apply (f_equal String.length) in H. simpl in H. lia.
  - rewrite <- IH. split; [by intros [= ->] | by intros ->].
Qed.

(** X6.  [escapeRegex] loses nothing and escapes everything: reading its
    result with every backslash making the next character literal gives the
    input back, so no metacharacter is left bare and different inputs give
    different patterns; the result is at most twice as long as the input,
    and it is the input itself exactly when the input holds no
    metacharacter. *)
Theorem escapeRegex_round_trip (s t : string) :
  literal_of (escapeRegex s) = Some s
  /\ (escapeRegex s = escapeRegex t -> s = t)
  /\ (String.length s <= String.length (escapeRegex s) <= 2 * String.length s)%nat
  /\ (escapeRegex s = s
      <-> forallb (fun c => negb (regex c)) (list_ascii_of_string s) = true).
Proof.
  split; [apply literal_of_escapeRegex |]. split.
  - intros H. apply (f_equal literal_of) in H.
    rewrite !literal_of_escapeRegex in H. by injection H.
  - split; [apply length_escapeRegex | apply escapeRegex_fixed].
Qed.

Lemma regex_i_escapeRegex (q value : string) :
  regex_i (escapeRegex q) value = includes (toUpperCase q) (toUpperCase value).
Proof. unfold regex_i. by rewrite literal_of_escapeRegex. Qed.


Lemma includes_empty (s : string) : includes "" s = true.
Proof. by destruct s. Qed.

Lemma search_property_spec (q : option string) (c : CourseDoc) :
  search_property q c = matches_query (default "" q) c.
Proof.
  unfold search_property, matches_query.
  destruct q as [q |]; simpl; [| by rewrite includes_empty].
  unfold nonempty. destruct (String.eqb q "") eqn:Hq; simpl.
  - apply String.eqb_eq in Hq. subst q. simpl. by rewrite includes_empty.
  - by rewrite !regex_i_escapeRegex.
Qed.

Lemma filter_search_property (q : option string) (cs : list CourseDoc) :
  List.filter (search_property q) cs = List.filter (matches_query (default "" q)) cs.
Proof. apply List.filter_ext. intros c. apply search_property_spec. Qed.

(** X7.  The course search is a plain containment test: whatever characters
    the query holds, the answer lists, in collection order, courses whose
    name contains the query or whose code contains the query without its
    first space, letter case aside (every course when the query is empty
    or missing); it lists all of them when no limit applies, a leading part
    of them otherwise, and the search changes nothing. *)
Theorem get_courses_literal_search (q l : option string) (w : World) :
  let all := map summary (List.filter (matches_query (default "" q)) (Courses w)) in
  snd (run (get_courses q l) w) = w
  /\ (limit_of l = 0 -> fst (run (get_courses q l) w) = all)
  /\ (limit_of l <> 0 ->
      fst (run (get_courses q l) w) = firstn (Z.to_nat (Z.abs (limit_of l))) all).
Proof.
  intros all. subst all. unfold get_courses, Course_find. simpl.
  rewrite filter_search_property. split; [done |]. split; intros H.
  - by rewrite H.
  - apply Z.eqb_neq in H. by rewrite H.
Qed.

Lemma digits_numeral (d : Decimal.uint) (acc : Z) :
  digits 10 (Some acc) (NilEmpty.string_of_uint d) = Some (numeral_value d acc).
Proof.
  revert acc. induction d; intros acc; simpl; try done;
    rewrite IHd; do 2 f_equal; lia.
Qed.

Lemma digits_numeral_start (d : Decimal.uint) :
  d <> Decimal.Nil ->
  digits 10 None (NilEmpty.string_of_uint d) = Some (numeral_value d 0).
Proof.
  destruct d; intros H; simpl; try done; by rewrite digits_numeral.
Qed.

Lemma of_uint_acc_value (d : Decimal.uint) (acc : positive) :
  Z.pos (Pos.of_uint_acc d acc) = numeral_value d (Z.pos acc).
Proof.
  revert acc. induction d; intros acc; simpl; try done;
    rewrite IHd; f_equal; lia.
Qed.

Lemma of_uint_value (d : Decimal.uint) : Z.of_N (Pos.of_uint d) = numeral_value d 0.
Proof.
  induction d; simpl; try done; apply of_uint_acc_value.
Qed.

Lemma head_is_digit_numeral (d : Decimal.uint) :
  head_is_digit (NilEmpty.string_of_uint d) = true.
Proof. by destruct d. Qed.

Lemma option_map_mul_1 (x : option Z) : option_map (Z.mul 1) x = x.
Proof. destruct x as [z |]; [| done]. simpl. f_equal. by destruct z. Qed.

Lemma mathInt_numeral (c : ascii) (s : string) :
  is_digit c = true -> head_is_digit s = true ->
  mathInt (String c s) = digits 10 None (String c s).
Proof.
  intros Hc Hs. rewrite <- (option_map_mul_1 (digits 10 None (String c s))).
  destruct c as [[|] [|] [|] [|] [|] [|] [|] [|]]; try discriminate Hc; try reflexivity.
  destruct s as [| d s']; [reflexivity |].
  destruct d as [[|] [|] [|] [|] [|] [|] [|] [|]]; try discriminate Hs; reflexivity.
Qed.

Lemma mathInt_uint (d : Decimal.uint) :
  d <> Decimal.Nil ->
  mathInt (NilEmpty.string_of_uint d) = Some (numeral_value d 0).
Proof.
  intros Hd. rewrite <- (digits_numeral_start d Hd).
  destruct d; try done; simpl NilEmpty.string_of_uint;
    (apply mathInt_numeral; [done | apply head_is_digit_numeral]).
Qed.

Lemma mathInt_minus (c : ascii) (s : string) :
  is_digit c = true -> head_is_digit s = true ->
  mathInt (String "-" (String c s)) = option_map Z.opp (mathInt (String c s)).
Proof.
  intros Hc Hs. rewrite (mathInt_numeral c s Hc Hs).
  assert (forall x, option_map (Z.mul (-1)) x = option_map Z.opp x) as Hneg.
  { by intros [[| p | p] |]. }
  rewrite <- Hneg.
  destruct c as [[|] [|] [|] [|] [|] [|] [|] [|]]; try discriminate Hc; try reflexivity.
  destruct s as [| d s']; [reflexivity |].
  destruct d as [[|] [|] [|] [|] [|] [|] [|] [|]]; try discriminate Hs; reflexivity.
Qed.

Lemma mathInt_decimal (n : Z) : mathInt (String_ (JNum n)) = Some n.
Proof.
  simpl. destruct n as [| p | p]; [reflexivity | |]; simpl.
  - pose proof (DecimalPos.Unsigned.to_uint_nonnil p) as Hp.
    assert (NilZero.string_of_uint (Pos.to_uint p) = NilEmpty.string_of_uint (Pos.to_uint p))
      as -> by (by destruct (Pos.to_uint p)).
    rewrite (mathInt_uint _ Hp), <- of_uint_value, DecimalPos.Unsigned.of_to. done.
  - pose proof (DecimalPos.Unsigned.to_uint_nonnil p) as Hp.
    assert (NilZero.string_of_uint (Pos.to_uint p) = NilEmpty.string_of_uint (Pos.to_uint p))
      as -> by (by destruct (Pos.to_uint p)).
    pose proof (mathInt_uint _ Hp) as H.
    rewrite <- of_uint_value, DecimalPos.Unsigned.of_to in H.
    destruct (Pos.to_uint p) eqn:E; try done; simpl NilEmpty.string_of_uint in *;
      (rewrite mathInt_minus, H; [done | done | apply head_is_digit_numeral]).
Qed.

Lemma parseInt_decimal (n : Z) :
  Z.abs n < 2 ^ 53 -> parseInt (String_ (JNum n)) = Some n.
Proof.
  intros Hn. unfold parseInt. rewrite mathInt_decimal. simpl. unfold to_double.
  assert ((Z.abs n <? 2 ^ 53) = true) as -> by lia. done.
Qed.

Lemma limit_of_decimal (n : Z) :
  Z.abs n < 2 ^ 53 -> limit_of (Some (String_ (JNum n))) = n.
Proof.
  intros Hn. unfold limit_of.
  replace (default "undefined" (Some (String_ (JNum n)))) with (String_ (JNum n))
    by reflexivity.
  rewrite (parseInt_decimal n Hn).
  destruct (n =? 0) eqn:H; [| done]. apply Z.eqb_eq in H. by subst n.
Qed.

(** X8.  Below 2^53, where every integer is a Number, [parseInt] reads back
    what JavaScript prints for an integer, so a limit [l] given as the
    decimal numeral of such an [n >= 0] limits the search to the first [n]
    of the courses it would answer without a limit, and to all of them for
    0; a missing [l] is no limit.  (Beyond 2^53 [parseInt] rounds:
    [to_double].) *)
Theorem get_courses_limit (q : option string) (n : Z) (w : World) :
  0 <= n < 2 ^ 53 ->
  parseInt (String_ (JNum n)) = Some n
  /\ limit_of None = 0
  /\ fst (run (get_courses q (Some (String_ (JNum n)))) w)
     = (if n =? 0 then fst (run (get_courses q None) w)
        else firstn (Z.to_nat n) (fst (run (get_courses q None) w))).
Proof.
  intros Hn. assert (Z.abs n < 2 ^ 53) as Habs by lia.
  split; [by apply parseInt_decimal |]. split; [reflexivity |].
  unfold get_courses. rewrite (limit_of_decimal n Habs). change (limit_of None) with 0.
  unfold Course_find. cbn [run fst Z.eqb].
  destruct (n =? 0); [done |]. rewrite Z.abs_eq; [done | lia].
Qed.

(** X8, witness: two of three courses; and the rounding beyond 2^53. *)
Lemma get_courses_limit_witness :
  let w := set_Courses [Fixture.course "LEEECS10123.00" []; Fixture.course "LEEECS10303.00" [];
                        Fixture.course "SCMATH10133.00" []] empty_World in
  map summary_number (fst (run (get_courses None (Some "2")) w)) = ["1012"; "1012"]
  /\ length (fst (run (get_courses None None) w)) = 3%nat
  /\ parseInt "9007199254740993" = Some 9007199254740992.
Proof.
  intros w. split; [| split; reflexivity].
  change (Some "2") with (Some (String_ (JNum 2))).
  rewrite (proj2 (proj2 (get_courses_limit None 2 w ltac:(lia)))). reflexivity.
Defined.

(** ** Rate limiting *)

Lemma rateLimit_in_window (o : RateLimit) (st : MemoryStore) (req : Request) :
  now req < resetTime st ->
  let count := default 0 (hits st !! keyGenerator o req) + 1 in
  rateLimit o st req
  = (if max o <? count then Some (limiterHandler (resetTime st)) else None,
     {| hits := <[keyGenerator o req := count]> (hits st); resetTime := resetTime st |}).
Proof.
  intros Hnow count. unfold rateLimit, incr, elapse.
  assert ((resetTime st <=? now req) = false) as -> by lia.
  fold count. by destruct (max o <? count).
Qed.

Lemma through_single (l : Limiter) (req : Request) (sts : Limiter -> MemoryStore) :
  through [l] req sts
  = (fst (rateLimit (options l) (sts l) req),
     fun l' => if decide (l' = l) then snd (rateLimit (options l) (sts l) req) else sts l').
Proof.
  simpl. destruct (rateLimit (options l) (sts l) req) as [[resp |] st']; done.
Qed.

(** X9.  Within one window a limiter counts per key: of requests that all
    arrive before the store's next reset, the one at position [i] is let
    through exactly when the hits its key had before, plus the earlier
    requests with the same key, plus one, do not exceed [max]; otherwise it
    is answered by the limiter's handler.  Requests with other keys do not
    count against it, and rejected requests count like accepted ones. *)
Theorem limiter_counts_per_key (l : Limiter) (reqs : list Request)
        (sts : Limiter -> MemoryStore) (i : nat) (req : Request) :
  (forall r, r ∈ reqs -> now r < resetTime (sts l)) ->
  reqs !! i = Some req ->
  let o := options l in
  let count := default 0 (hits (sts l) !! keyGenerator o req)
               + earlier_hits o reqs i (keyGenerator o req) + 1 in
  through_each [l] reqs sts !! i
  = Some (if max o <? count then Some (limiterHandler (resetTime (sts l))) else None).
Proof.
  intros Hwin Hi o. subst o. revert sts i Hwin Hi.
  induction reqs as [| r0 rest IH]; intros sts i Hwin Hi; [done |].
  assert (now r0 < resetTime (sts l)) as H0 by (apply Hwin; left).
  cbn [through_each]. rewrite through_single.
  rewrite (rateLimit_in_window _ _ _ H0). cbn [fst snd].
  destruct i as [| j].
  - injection Hi as ->. unfold earlier_hits. simpl. by rewrite Z.add_0_r.
  - simpl in Hi.
    set (sts' := fun l' => if decide (l' = l) then _ else sts l').
    change ((?x :: through_each [l] rest sts') !! S j) with (through_each [l] rest sts' !! j).
    assert (sts' l = {| hits := <[keyGenerator (options l) r0 :=
                                    default 0 (hits (sts l) !! keyGenerator (options l) r0) + 1]>
                                  (hits (sts l));
                        resetTime := resetTime (sts l) |}) as Hl.
    { subst sts'. simpl. by destruct (decide (l = l)). }
    assert (forall r, r ∈ rest -> now r < resetTime (sts' l)) as Hwin'.
    { intros r Hr. rewrite Hl. simpl. apply Hwin. by right. }
    rewrite (IH sts' j Hwin' Hi). rewrite Hl. cbn [hits resetTime].
    do 2 f_equal.
    assert (default 0 (<[keyGenerator (options l) r0 :=
                         default 0 (hits (sts l) !! keyGenerator (options l) r0) + 1]>
                       (hits (sts l)) !! keyGenerator (options l) req)
            + earlier_hits (options l) rest j (keyGenerator (options l) req)
            = default 0 (hits (sts l) !! keyGenerator (options l) req)
              + earlier_hits (options l) (r0 :: rest) (S j) (keyGenerator (options l) req))
      as Hcount; [| by rewrite Hcount].
    unfold earlier_hits. cbn [firstn List.filter].
    destruct (String.eqb (keyGenerator (options l) r0) (keyGenerator (options l) req)) eqn:Hk.
    + apply String.eqb_eq in Hk. rewrite Hk, lookup_insert_eq. cbn [length default from_option id].
      lia.
    + apply String.eqb_neq in Hk. rewrite lookup_insert_ne by done. lia.
Qed.

(** X9, witness: the report limiter (one per minute) and the callers a, b,
    a: the third request is a's second. *)
Lemma limiter_counts_per_key_witness :
  let from caller t := Fixture.request "" "" [] caller t JUndef in
  through_each [reportLimiter] [from "a" 1000; from "b" 2000; from "a" 3000] (fresh_stores 0)
  !! 2%nat
  = Some (Some (limiterHandler 60000)).
Proof.
  intros from.
  apply (limiter_counts_per_key reportLimiter
           [from "a" 1000; from "b" 2000; from "a" 3000] (fresh_stores 0) 2
           (from "a" 3000)); [| reflexivity].
  intros r Hr. simpl.
  repeat (apply elem_of_cons in Hr as [-> | Hr]; [simpl; lia |]).
  by apply elem_of_nil in Hr.
Defined.

(** X10.  When a request arrives at or after the store's reset time, the
    table is cleared and the request is the first hit of a new window: the
    next reset lies after the request, at most one window later, a whole
    number of windows after the old one, and the request is let through
    unless [max] is below one. *)
Theorem limiter_window_rollover (o : RateLimit) (st : MemoryStore) (req : Request) :
  0 < windowMs o ->
  resetTime st <= now req ->
  let st' := snd (rateLimit o st req) in
  hits st' = {[ keyGenerator o req := 1 ]}
  /\ now req < resetTime st' <= now req + windowMs o
  /\ (resetTime st' - resetTime st) mod windowMs o = 0
  /\ (fst (rateLimit o st req) = None <-> 1 <= max o).
Proof.
  intros Hw Hnow st'. subst st'. unfold rateLimit, incr, elapse.
  assert ((resetTime st <=? now req) = true) as -> by lia.
  cbn [hits resetTime]. rewrite lookup_empty. cbn [default from_option id].
  change (0 + 1) with 1.
  set (d := now req - resetTime st).
  pose proof (Z.mul_div_le d (windowMs o) Hw) as Hle.
  pose proof (Z.mul_succ_div_gt d (windowMs o) Hw) as Hgt.
  destruct (max o <? 1) eqn:Hmax; cbn [fst snd hits resetTime].
  - split; [by rewrite insert_empty |]. split; [subst d; lia |]. split.
    + replace (_ - resetTime st) with ((d / windowMs o + 1) * windowMs o) by lia.
      apply Z.mod_mul. lia.
    + split; [done | lia].
  - split; [by rewrite insert_empty |]. split; [subst d; lia |]. split.
    + replace (_ - resetTime st) with ((d / windowMs o + 1) * windowMs o) by lia.
      apply Z.mod_mul. lia.
    + split; [lia | done].
Qed.

(** X10, witness: the link limiter, first reset due at 60 s, a request at
    150 s: the next reset is due at 180 s. *)
Lemma limiter_window_rollover_witness :
  let req := Fixture.request "" "" [] "10.0.0.1" 150000 JUndef in
  resetTime (snd (rateLimit (options newLinkLimiter) (fresh_stores 0 newLinkLimiter) req))
  = 180000
  /\ fst (rateLimit (options newLinkLimiter) (fresh_stores 0 newLinkLimiter) req) = None.
Proof.
  intros req. split; [reflexivity |].
  apply (limiter_window_rollover (options newLinkLimiter) (fresh_stores 0 newLinkLimiter) req);
    simpl; lia.
Defined.

Section OneReportPerWindow.

Variable siteverify : string -> bool.
Variable mailer : string -> jsval -> deliveryOutcome.
Variable caller : string.

Lemma serve_report_rejected (req : Request) (sv : Server) :
  ip req = caller ->
  now req < resetTime (stores sv reportLimiter) ->
  1 <= default 0 (hits (stores sv reportLimiter) !! caller) ->
  let sv' := snd (serve siteverify mailer POST_report req sv) in
  world sv' = world sv
  /\ resetTime (stores sv' reportLimiter) = resetTime (stores sv reportLimiter)
  /\ 1 <= default 0 (hits (stores sv' reportLimiter) !! caller).
Proof.
  intros Hip Hnow Hh. unfold serve. cbn [middleware]. rewrite through_single.
  rewrite (rateLimit_in_window _ _ _ Hnow). cbn [options keyGenerator max fst snd].
  rewrite Hip.
  assert ((1 <? default 0 (hits (stores sv reportLimiter) !! caller) + 1) = true) as -> by lia.
  cbn [snd world stores]. destruct (decide (reportLimiter = reportLimiter)); [| done].
  cbn [hits resetTime]. rewrite lookup_insert_eq. cbn [default from_option id].
  split; [done |]. split; [done | lia].
Qed.

Lemma serve_all_reports_rejected (reqs : list Request) (sv : Server) :
  (forall r, r ∈ reqs -> ip r = caller /\ now r < resetTime (stores sv reportLimiter)) ->
  1 <= default 0 (hits (stores sv reportLimiter) !! caller) ->
  world (snd (serve_all siteverify mailer (map (pair POST_report) reqs) sv)) = world sv.
Proof.
  revert sv. induction reqs as [| r0 rest IH]; intros sv Hreqs Hh; [done |].
  destruct (Hreqs r0 ltac:(left)) as [Hip Hnow].
  pose proof (serve_report_rejected r0 sv Hip Hnow Hh) as (Hw & Hrt & Hh').
  cbn [map serve_all].
  destruct (serve siteverify mailer POST_report r0 sv) as [resp sv'] eqn:Hserve.
  cbn [snd] in Hw, Hrt, Hh'.
  specialize (IH sv').
  destruct (serve_all siteverify mailer (map (pair POST_report) rest) sv') as [resps sv''].
  cbn [snd] in *. rewrite <- Hw. apply IH; [| done].
  intros r Hr. rewrite Hrt. apply Hreqs. by right.
Qed.

Lemma post_report_appends (req : Request) (w : World) :
  let w' := snd (run (post_report siteverify req) w) in
  Courses w' = Courses w /\ verifier w' = verifier w /\ outbox w' = outbox w
  /\ (Reports w' = Reports w
      \/ Reports w' = (Reports w ++ [new_Report (<["ip" := remoteAddress req]> (body req))
                                                (now req)])%list).
Proof.
  unfold post_report. destruct (_ && _); [| by auto].
  run_step. destruct (siteverify _); [| by auto].
  run_step. auto.
Qed.

Lemma serve_all_reports_at_most_one (reqs : list Request) (sv : Server) :
  (forall r, r ∈ reqs -> ip r = caller /\ now r < resetTime (stores sv reportLimiter)) ->
  0 <= default 0 (hits (stores sv reportLimiter) !! caller) ->
  let w' := world (snd (serve_all siteverify mailer (map (pair POST_report) reqs) sv)) in
  Courses w' = Courses (world sv) /\ verifier w' = verifier (world sv)
  /\ outbox w' = outbox (world sv)
  /\ (length (Reports w') <= length (Reports (world sv)) + 1)%nat.
Proof.
  intros Hreqs Hh.
  destruct (decide (1 <= default 0 (hits (stores sv reportLimiter) !! caller))) as [H1 | H0].
  { cbn zeta. rewrite (serve_all_reports_rejected reqs sv Hreqs H1). repeat split; lia. }
  destruct reqs as [| r0 rest]; [cbn; repeat split; lia |].
  destruct (Hreqs r0 ltac:(left)) as [Hip Hnow].
  cbn [map serve_all].
  destruct (serve siteverify mailer POST_report r0 sv) as [resp sv'] eqn:Hserve.
  assert (world sv' = snd (run (post_report siteverify r0) (world sv))
          /\ resetTime (stores sv' reportLimiter) = resetTime (stores sv reportLimiter)
          /\ 1 <= default 0 (hits (stores sv' reportLimiter) !! caller)) as (Hw & Hrt & Hh').
  { revert Hserve. unfold serve. cbn [middleware]. rewrite through_single.
    rewrite (rateLimit_in_window _ _ _ Hnow). cbn [options keyGenerator max fst snd].
    rewrite Hip.
    assert ((1 <? default 0 (hits (stores sv reportLimiter) !! caller) + 1) = false) as ->
      by lia.
    cbn [handler]. destruct (run (post_report siteverify r0) (world sv)) as [resp0 w0].
    intros [= _ <-]. cbn [world stores snd].
    destruct (decide (reportLimiter = reportLimiter)); [| done].
    cbn [hits resetTime]. rewrite lookup_insert_eq. cbn [default from_option id].
    split; [done |]. split; [done | lia]. }
  assert (forall r, r ∈ rest -> ip r = caller /\ now r < resetTime (stores sv' reportLimiter))
    as Hrest.
  { intros r Hr. rewrite Hrt. apply Hreqs. by right. }
  pose proof (serve_all_reports_rejected rest sv' Hrest Hh') as Hsame.
  destruct (serve_all siteverify mailer (map (pair POST_report) rest) sv') as [resps sv''].
  cbn [snd] in *. rewrite Hsame, Hw.
  destruct (post_report_appends r0 (world sv)) as (Hc & Hv & Ho & [Hr | Hr]);
    rewrite Hc, Hv, Ho, Hr; repeat split; try done; [lia |].
  rewrite length_app. simpl. lia.
Qed.

End OneReportPerWindow.

(** X11.  One report per caller and window: however many report requests
    one caller sends before the report limiter's next reset, served one
    after the other, at most one report is added to the collection, and
    nothing else in the world changes. *)
Theorem at_most_one_report_per_window (siteverify : string -> bool)
        (mailer : string -> jsval -> deliveryOutcome) (caller : string)
        (reqs : list Request) (sv : Server) :
  (forall r, r ∈ reqs -> ip r = caller /\ now r < resetTime (stores sv reportLimiter)) ->
  0 <= default 0 (hits (stores sv reportLimiter) !! caller) ->
  let w' := world (snd (serve_all siteverify mailer (map (pair POST_report) reqs) sv)) in
  Courses w' = Courses (world sv) /\ verifier w' = verifier (world sv)
  /\ outbox w' = outbox (world sv)
  /\ (length (Reports w') <= length (Reports (world sv)) + 1)%nat.
Proof. apply serve_all_reports_at_most_one. Qed.

(** X11, witness: three valid reports of one caller within four seconds of
    a fresh start: one is stored. *)
Lemma at_most_one_report_per_window_witness :
  let report t := Fixture.request "" ""
                    [("link_id", JStr "61f0c0ffee"); ("reason", JStr "spam");
                     ("captcha", JStr "human")] "10.0.0.1" t JUndef in
  let sv := {| stores := fresh_stores 0; world := empty_World |} in
  let w' := world (snd (serve_all Fixture.human Fixture.delivers
                          (map (pair POST_report) [report 1000; report 2000; report 3000])
                          sv)) in
  (length (Reports w') <= 1)%nat /\ length (Reports w') = 1%nat.
Proof.
  intros report sv w'. split; [| reflexivity].
  apply (at_most_one_report_per_window Fixture.human Fixture.delivers "10.0.0.1"
           [report 1000; report 2000; report 3000] sv).
  - intros r Hr.
    repeat (apply elem_of_cons in Hr as [-> | Hr]; [split; [reflexivity | simpl; lia] |]).
    by apply elem_of_nil in Hr.
  - by vm_compute.
Defined.

(** ** Effects of the handlers served one at a time *)

Lemma update_first_none (f : CourseDoc -> bool) (u : CourseDoc -> CourseDoc)
      (cs : list CourseDoc) :
  List.find f cs = None -> Mongo.update_first f u cs = cs.
Proof.
  induction cs as [| c cs IH]; [done |]. simpl.
  destruct (f c); [done |]. intros H. by rewrite IH.
Qed.

Lemma set_Courses_same (w : World) : set_Courses (Courses w) w = w.
Proof. by destruct w. Qed.

Section NoPartialEffect.

Variable siteverify : string -> bool.

Lemma post_courses_failure (req : Request) (w : World) :
  status_of (fst (run (post_courses siteverify req) w)) <> Some CREATED ->
  snd (run (post_courses siteverify req) w) = w.
Proof.
  unfold post_courses. destruct (_ && _); [| done].
  run_step. destruct (siteverify _); [| done].
  run_step. destruct (List.find _ _); [done |]. run_step. by intros [].
Qed.

Lemma post_sections_failure (req : Request) (w : World) :
  status_of (fst (run (post_sections siteverify req) w)) <> Some CREATED ->
  snd (run (post_sections siteverify req) w) = w.
Proof.
  unfold post_sections. destruct (_ && _); [| done].
  run_step. destruct (siteverify _); [| done].
  run_step. destruct (List.find _ _); [done |]. run_step.
  destruct (List.find _ _) eqn:Hfind; [by intros [] |].
  intros _. simpl. by rewrite (update_first_none _ _ _ Hfind), set_Courses_same.
Qed.

Lemma link_store_failure (req : Request) (code section : string) (w : World) :
  status_of (fst (run (link_store req code section) w)) <> Some CREATED ->
  snd (run (link_store req code section) w) = w.
Proof.
  unfold link_store. run_step. destruct (List.find _ _); [done |]. run_step.
  destruct (List.find _ _) eqn:Hfind; [by intros [] |].
  intros _. simpl. by rewrite (update_first_none _ _ _ Hfind), set_Courses_same.
Qed.

Lemma post_link_failure (req : Request) (w : World) (s : Z) :
  status_of (fst (run (post_link req) w)) = Some s -> s <> CREATED ->
  Courses (snd (run (post_link req) w)) = Courses w
  /\ Reports (snd (run (post_link req) w)) = Reports w
  /\ outbox (snd (run (post_link req) w)) = outbox w.
Proof.
  intros Hs Hne. assert (status_of (fst (run (post_link req) w)) <> Some CREATED) as H.
  { rewrite Hs. congruence. }
  clear Hs Hne. cut (snd (run (post_link req) w) = w); [by intros -> |]. revert H.
  unfold post_link. destruct (normalized_username _); [| done].
  destruct (_ && _); [| done].
  simpl. destruct (Verifier.hasCode _ _ _); [| done].
  simpl. destruct (Verifier.checkCode _ _ _ _); [| done].
  apply link_store_failure.
Qed.

Lemma post_link_click_failure (req : Request) (w : World) :
  status_of (fst (run (post_link_click req) w)) <> Some CREATED ->
  snd (run (post_link_click req) w) = w.
Proof.
  unfold post_link_click. destruct (_ && _); [| done]. run_step. by intros [].
Qed.

Lemma post_report_failure (req : Request) (w : World) :
  status_of (fst (run (post_report siteverify req) w)) <> Some CREATED ->
  snd (run (post_report siteverify req) w) = w.
Proof.
  unfold post_report. destruct (_ && _); [| done].
  run_step. destruct (siteverify _); [| done]. run_step. by intros [].
Qed.

End NoPartialEffect.

(** X12.  No partial effects: course creation, section creation, link
    click and report submission leave the world exactly as it was whenever
    they answer anything but 201, and a link creation answered with a
    status other than 201 (400, 401, 404, 409, 410) leaves the stored
    courses, the stored reports and the mail log as they were.  Of link
    creation the verifier's table is not spoken of (whether a successful
    code check uses up the record is left open), nor is the request that
    gets no answer at all (line 363 throwing). *)
Theorem failure_changes_nothing (siteverify : string -> bool) (req : Request) (w : World) :
  (status_of (fst (run (post_courses siteverify req) w)) <> Some CREATED ->
   snd (run (post_courses siteverify req) w) = w)
  /\ (status_of (fst (run (post_sections siteverify req) w)) <> Some CREATED ->
      snd (run (post_sections siteverify req) w) = w)
  /\ (forall s, status_of (fst (run (post_link req) w)) = Some s -> s <> CREATED ->
                 Courses (snd (run (post_link req) w)) = Courses w
                 /\ Reports (snd (run (post_link req) w)) = Reports w
                 /\ outbox (snd (run (post_link req) w)) = outbox w)
  /\ (status_of (fst (run (post_link_click req) w)) <> Some CREATED ->
      snd (run (post_link_click req) w) = w)
  /\ (status_of (fst (run (post_report siteverify req) w)) <> Some CREATED ->
      snd (run (post_report siteverify req) w) = w).
Proof.
  split; [apply post_courses_failure |]. split; [apply post_sections_failure |].
  split; [apply post_link_failure |]. split; [apply post_link_click_failure |].
  apply post_report_failure.
Qed.

(** X12, witness: a section for a course that does not exist (404). *)
Lemma failure_changes_nothing_witness :
  let req := Fixture.request "math1013" ""
               [("name", JStr "A"); ("captcha", JStr "human")] "10.0.0.1" 0 JUndef in
  let w := set_Courses [Fixture.course "EECS1012" []] empty_World in
  status_of (fst (run (post_sections Fixture.human req) w)) = Some NOT_FOUND
  /\ snd (run (post_sections Fixture.human req) w) = w.
Proof.
  intros req w. split; [reflexivity |].
  apply (failure_changes_nothing Fixture.human req w). discriminate.
Defined.

Lemma find_after_update (f g : CourseDoc -> bool) (u : CourseDoc -> CourseDoc)
      (cs : list CourseDoc) :
  (forall c, f c = true -> f (u c) = true /\ g (u c) = true) ->
  is_Some (List.find f cs) ->
  is_Some (List.find (fun c => f c && g c) (Mongo.update_first f u cs)).
Proof.
  intros Hu. induction cs as [| c cs IH]; simpl; [by intros [? ?] |].
  destruct (f c) eqn:Hf; simpl.
  - intros _. destruct (Hu c Hf) as [-> ->]. by eexists.
  - rewrite Hf. simpl. apply IH.
Qed.

Lemma push_links_at_names (name : string) (l : LinkDoc) (ss : list SectionDoc) :
  map section_name (Mongo.push_links_at name l ss) = map section_name ss.
Proof.
  induction ss as [| s ss IH]; [done |]. simpl.
  destruct (String.eqb (section_name s) name); simpl; [done |]. by rewrite IH.
Qed.

Lemma existsb_over_map {A B : Type} (f : B -> bool) (g : A -> B) (l : list A) :
  existsb f (map g l) = existsb (fun x => f (g x)) l.
Proof. induction l as [| x l IH]; [done |]. simpl. by rewrite IH. Qed.

Lemma sections_name_is_names (name : string) (c c' : CourseDoc) :
  map section_name (course_sections c') = map section_name (course_sections c) ->
  Mongo.sections_name_is name c' = Mongo.sections_name_is name c.
Proof.
  unfold Mongo.sections_name_is. intros H.
  rewrite <- (existsb_over_map (fun n => String.eqb n name) section_name (course_sections c')).
  rewrite <- (existsb_over_map (fun n => String.eqb n name) section_name (course_sections c)).
  by rewrite H.
Qed.

Lemma push_links_at_url (name : string) (l : LinkDoc) (ss : list SectionDoc) :
  existsb (fun s => String.eqb (section_name s) name) ss = true ->
  existsb (fun s => existsb (fun l' => String.eqb (link_url l') (link_url l)) (section_links s))
          (Mongo.push_links_at name l ss) = true.
Proof.
  induction ss as [| s ss IH]; [done |]. simpl.
  destruct (String.eqb (section_name s) name); simpl.
  - intros _. rewrite existsb_app. simpl. by rewrite String.eqb_refl, orb_true_r.
  - intros H. rewrite (IH H). apply orb_true_r.
Qed.

Section RepeatedCreation.

Variable siteverify : string -> bool.

Lemma post_sections_repeated (req : Request) (w : World) :
  status_of (fst (run (post_sections siteverify req) w)) = Some CREATED ->
  let w1 := snd (run (post_sections siteverify req) w) in
  run (post_sections siteverify req) w1
  = (json CONFLICT (error "Section already exists."), w1).
Proof.
  unfold post_sections. destruct (_ && _); [| done].
  run_step. destruct (siteverify _) eqn:Hv; [| done].
  run_step. destruct (List.find _ _) eqn:Hdup; [done |]. run_step.
  destruct (List.find (Mongo.code_is _) _) eqn:Hcourse; [| done].
  intros _. run_step.
  destruct (find_after_update
              (Mongo.code_is (toUpperCase (trim (param_code req))))
              (Mongo.sections_name_is (String_ (get (body req) "name")))
              (Mongo.push_sections (new_Section (body req))) (Courses w)) as [c' ->]; [| | done].
  - intros c0 Hc. split; [done |].
    unfold Mongo.sections_name_is, Mongo.push_sections. simpl.
    rewrite existsb_app. simpl. by rewrite String.eqb_refl, orb_true_r.
  - by rewrite Hcourse.
Qed.

Lemma link_store_repeated (req : Request) (code section : string) (w : World) :
  status_of (fst (run (link_store req code section) w)) = Some CREATED ->
  let w1 := snd (run (link_store req code section) w) in
  verifier w1 = verifier w
  /\ run (link_store req code section) w1
     = (json CONFLICT (error "Link already exists."), w1).
Proof.
  unfold link_store. run_step. destruct (List.find _ _) eqn:Hdup; [done |]. run_step.
  destruct (List.find (fun c => Mongo.code_is code c && Mongo.sections_name_is section c) _)
    eqn:Hcourse; [| done].
  intros _. simpl. split; [done |].
  destruct (find_after_update
              (fun c => Mongo.code_is code c && Mongo.sections_name_is section c)
              (Mongo.sections_links_url_is (String_ (get (body req) "url")))
              (Mongo.push_sections_links section (new_Link (body req) (now req)))
              (Courses w)) as [c' ->]; [| | done].
  - intros c0 [Hc Hs]%andb_prop.
    assert (Mongo.sections_name_is section
              (Mongo.push_sections_links section (new_Link (body req) (now req)) c0) = true)
      as Hs'.
    { rewrite (sections_name_is_names section c0); [done |]. simpl. apply push_links_at_names. }
    split; [by rewrite Hs', andb_true_r |].
    unfold Mongo.sections_links_url_is, Mongo.push_sections_links. simpl.
    by apply (push_links_at_url section (new_Link (body req) (now req))).
  - by rewrite Hcourse.
Qed.

Lemma post_link_created (req : Request) (w : World) :
  status_of (fst (run (post_link req) w)) = Some CREATED ->
  exists username,
    normalized_username (body req) = Some username
    /\ required_fields req = true
    /\ Verifier.hasCode (verifier w) (now req) username = true
    /\ Verifier.checkCode (verifier w) (now req) username (get (body req) "code") = true
    /\ run (post_link req) w
       = run (link_store req (toUpperCase (trim (param_code req))) (param_section req)) w.
Proof.
  intros H. destruct (normalized_username (body req)) as [username |] eqn:Hname.
  - exists username. destruct (required_fields req) eqn:Hreq.
    + pose proof (post_link_required req w username Hname Hreq) as Hrun.
      rewrite Hrun in H |- *.
      destruct (Verifier.hasCode _ _ _); [| done].
      by destruct (Verifier.checkCode _ _ _ _).
    + by rewrite (post_link_missing_field req username Hname Hreq) in H.
  - unfold post_link in H. by rewrite Hname in H.
Qed.

Lemma link_store_conflict (other : Request) (code section : string) (w : World) :
  is_Some (List.find
             (fun c => Mongo.code_is code c && Mongo.sections_name_is section c
                       && Mongo.sections_links_url_is (String_ (get (body other) "url")) c)
             (Courses w)) ->
  run (link_store other code section) w
  = (json CONFLICT (error "Link already exists."), w).
Proof.
  intros [c Hc]. unfold link_store. run_step. by rewrite Hc.
Qed.

Lemma link_store_stored (req : Request) (code section : string) (w : World) :
  status_of (fst (run (link_store req code section) w)) = Some CREATED ->
  is_Some (List.find
             (fun c => Mongo.code_is code c && Mongo.sections_name_is section c
                       && Mongo.sections_links_url_is (String_ (get (body req) "url")) c)
             (Courses (snd (run (link_store req code section) w)))).
Proof.
  intros H. destruct (link_store_repeated req code section w H) as [_ Hagain].
  revert Hagain. generalize (snd (run (link_store req code section) w)). intros w1.
  unfold link_store. run_step.
  destruct (List.find
              (fun c => Mongo.code_is code c && Mongo.sections_name_is section c
                        && Mongo.sections_links_url_is (String_ (get (body req) "url")) c)
              (Courses w1)) as [c |]; [by eauto |].
  run_step. by destruct (List.find _ _).
Qed.

Lemma post_link_other_repeated (req other : Request) (w : World) :
  status_of (fst (run (post_link req) w)) = Some CREATED ->
  same_target req other ->
  let w1 := snd (run (post_link req) w) in
  passes_verification other w1 ->
  fst (run (post_link other) w1) = json CONFLICT (error "Link already exists.")
  /\ Courses (snd (run (post_link other) w1)) = Courses w1.
Proof.
  intros H (Hc & Hs & Hu) w1 (u & Hname' & Hreq' & Hhas' & Hchk'). subst w1.
  destruct (post_link_created req w H) as (username & Hname & Hreq & Hhas & Hchk & Hrun).
  rewrite Hrun in H |- *. rewrite Hrun in Hhas', Hchk'.
  rewrite (post_link_required other _ u Hname' Hreq'), Hhas', Hchk', Hc, Hs.
  rewrite link_store_conflict; [done |]. rewrite Hu. by apply link_store_stored.
Qed.

End RepeatedCreation.

(** X13.  Served one after the other, a creation that succeeded is a
    conflict when repeated: after a section creation answered 201 the same
    request is answered 409 "Section already exists."; after a link
    creation answered 201, every later link creation for the same course,
    section and url that gets past the verifier (from whatever identity,
    with whatever code the verifier then holds for it) is answered 409
    "Link already exists." and leaves the stored courses as they are. *)
Theorem repeated_creation_conflicts (siteverify : string -> bool)
        (req other : Request) (w : World) :
  (status_of (fst (run (post_sections siteverify req) w)) = Some CREATED ->
   let w1 := snd (run (post_sections siteverify req) w) in
   run (post_sections siteverify req) w1
   = (json CONFLICT (error "Section already exists."), w1))
  /\ (status_of (fst (run (post_link req) w)) = Some CREATED ->
      same_target req other ->
      let w1 := snd (run (post_link req) w) in
      passes_verification other w1 ->
      fst (run (post_link other) w1) = json CONFLICT (error "Link already exists.")
      /\ Courses (snd (run (post_link other) w1)) = Courses w1).
Proof. split; [apply post_sections_repeated | apply post_link_other_repeated]. Qed.

(** X13, witness: a section "B" created twice; alice's link created, then
    sent again by bob with his own code. *)
Lemma repeated_creation_conflicts_witness :
  let req := Fixture.request "eecs1012" ""
               [("name", JStr "B"); ("captcha", JStr "human")] "10.0.0.1" 0 JUndef in
  let w := set_Courses [Fixture.course "EECS1012" [Fixture.sec "A" []]] empty_World in
  let w1 := snd (run (post_sections Fixture.human req) w) in
  let fields user code := [("type", JStr "discord"); ("url", JStr "https://discord.gg/x");
                           ("terms", JBool true); ("username", JStr user);
                           ("code", JStr code)] in
  let alice := Fixture.request "eecs1012" "A" (fields "alice" "123456") "10.0.0.1" 1000 JUndef in
  let bob := Fixture.request " EECS1012" "A" (fields "bob" "654321") "10.0.0.2" 2000 JUndef in
  let v := set_verifier (Fixture.issued "alice" (JStr "123456") 0
                           ∪ Fixture.issued "bob" (JStr "654321") 0) w in
  let v1 := snd (run (post_link alice) v) in
  (map section_name (concat (map course_sections (Courses w1))) = ["A"; "B"]
   /\ run (post_sections Fixture.human req) w1
      = (json CONFLICT (error "Section already exists."), w1))
  /\ (map course_urls (Courses v1) = [["https://discord.gg/x"]]
      /\ fst (run (post_link bob) v1) = json CONFLICT (error "Link already exists.")).
Proof.
  intros req w w1 fields alice bob v v1. split; (split; [reflexivity |]).
  - apply (repeated_creation_conflicts Fixture.human req req w). reflexivity.
  - apply (repeated_creation_conflicts Fixture.human alice bob v); [reflexivity | |].
    + by vm_compute.
    + exists "bob". by vm_compute.
Defined.

(** ** Verification issuance and delivery *)

Lemma within_cooldown_minutes (t clock : Z) :
  t < clock < t + 15 * 60000 ->
  within_cooldown (Some (Verifier.minutes_since t clock)) = true.
Proof.
  intros H. unfold within_cooldown, Verifier.minutes_since.
  apply andb_true_intro. split; apply negb_true_iff.
  - destruct (Qeq_bool _ _) eqn:E; [| done].
    apply Qeq_bool_iff in E. unfold Qeq in E. simpl in E. lia.
  - destruct (Qle_bool _ _) eqn:E; [| done].
    apply Qle_bool_iff in E. unfold Qle in E. simpl in E. lia.
Qed.

(** X14.  Issuance stores the code before it is handed to the mail
    provider and keeps it whatever the provider answers: for a request with
    a string username and a verifying captcha outside the cooldown, the
    identity's record becomes the new code stamped with the request's clock,
    one mail is logged, and the status is 201, 422 or 500 by the delivery
    outcome.  A retry with the same body less than 15 minutes later is
    therefore answered 201 without issuing or sending anything, also after
    a failed delivery. *)
Theorem issuance_precedes_delivery (siteverify : string -> bool)
        (mailer : string -> jsval -> deliveryOutcome)
        (req retry : Request) (w : World) (u : string) :
  get (body req) "username" = JStr u ->
  u <> "" ->
  truthy (get (body req) "captcha") = true ->
  siteverify (String_ (get (body req) "captcha")) = true ->
  within_cooldown (Verifier.checkCodeTime (verifier w) (now req) (replaceAll "@" "" u))
  = false ->
  let username := replaceAll "@" "" u in
  let w1 := snd (run (post_verify_create siteverify mailer req) w) in
  verifier w1 = <[username := {| issued_code := nonce req; issued_at := now req |}]>
                  (verifier w)
  /\ outbox w1 = (outbox w ++ [(username, nonce req)])%list
  /\ Courses w1 = Courses w
  /\ Reports w1 = Reports w
  /\ status_of (fst (run (post_verify_create siteverify mailer req) w))
     = Some (delivery_status (mailer username (nonce req)))
  /\ (body retry = body req ->
      now req < now retry < now req + 15 * 60000 ->
      run (post_verify_create siteverify mailer retry) w1
      = (json CREATED (echo (body retry)), w1)).
Proof.
  intros Hu Hne Hc Hv Hcool username w1. subst username w1.
  assert (run (post_verify_create siteverify mailer req) w
          = (json (delivery_status (mailer (replaceAll "@" "" u) (nonce req)))
                  (match mailer (replaceAll "@" "" u) (nonce req) with
                   | accepted => echo (body req)
                   | invalidAddress => error "Invalid e-mail."
                   | providerFailure =>
                       error "Failed to send e-mail. Contact project developer(s)."
                   end),
             set_outbox (outbox w ++ [(replaceAll "@" "" u, nonce req)])
               (set_verifier
                  (<[replaceAll "@" "" u := {| issued_code := nonce req; issued_at := now req |}]>
                     (verifier w)) w))) as Hrun.
  { unfold post_verify_create. rewrite Hu, Hc, (truthy_JStr u Hne). run_step.
    rewrite Hv. run_step. rewrite Hcool. run_step.
    by destruct (mailer (replaceAll "@" "" u) (nonce req)). }
  rewrite Hrun. cbn [fst snd]. repeat (split; [done |]).
  intros Hbody Hnow. unfold post_verify_create. rewrite Hbody, Hu, Hc, (truthy_JStr u Hne).
  run_step. rewrite Hv. run_step. unfold Verifier.checkCodeTime.
  rewrite lookup_insert_eq. cbn [issued_at].
  by rewrite (within_cooldown_minutes _ _ Hnow).
Qed.

(** X14, witness: the provider fails for alice; her retry one minute later
    is answered 201 and no second mail is logged. *)
Lemma issuance_precedes_delivery_witness :
  let failing (_ : string) (_ : jsval) := providerFailure in
  let ask t := Fixture.request "" "" [("username", JStr "alice"); ("captcha", JStr "human")]
                 "10.0.0.1" t (JStr "123456") in
  let w1 := snd (run (post_verify_create Fixture.human failing (ask 0)) empty_World) in
  status_of (fst (run (post_verify_create Fixture.human failing (ask 0)) empty_World))
  = Some SERVER_ERROR
  /\ run (post_verify_create Fixture.human failing (ask 60000)) w1
     = (json CREATED (echo (body (ask 60000))), w1)
  /\ length (outbox w1) = 1%nat.
Proof.
  intros failing ask w1. split; [reflexivity |]. split; [| reflexivity].
  apply (issuance_precedes_delivery Fixture.human failing (ask 0) (ask 60000) empty_World
           "alice"); try reflexivity; [discriminate | simpl; lia].
Defined.

(** ** Invariants of the store under requests served one at a time *)

Lemma update_first_Forall (P : CourseDoc -> Prop) (f : CourseDoc -> bool)
      (u : CourseDoc -> CourseDoc) (cs : list CourseDoc) :
  (forall c, c ∈ cs -> f c = true -> P c -> P (u c)) ->
  Forall P cs -> Forall P (Mongo.update_first f u cs).
Proof.
  induction cs as [| c cs IH]; intros Hu Hall; [done |].
  apply Forall_cons in Hall as [Hc Hcs]. simpl. destruct (f c) eqn:Hf.
  - apply Forall_cons. split; [| done]. apply Hu; [left | done | done].
  - apply Forall_cons. split; [done |]. apply IH; [| done].
    intros c' Hin. apply Hu. by right.
Qed.

Lemma sections_links_url_is_false (url : string) (c : CourseDoc) :
  Mongo.sections_links_url_is url c = false -> url ∉ course_urls c.
Proof.
  unfold Mongo.sections_links_url_is, course_urls. intros H Hin.
  apply list_elem_of_In, in_concat in Hin as (urls & Hurls & Hin).
  apply in_map_iff in Hurls as (s & <- & Hs).
  apply in_map_iff in Hin as (l & Hl & Hin).
  assert (existsb (fun s => existsb (fun l => String.eqb (link_url l) url) (section_links s))
                  (course_sections c) = true) as Ht; [| congruence].
  apply existsb_exists. exists s. split; [done |].
  apply existsb_exists. exists l. split; [done |]. by apply String.eqb_eq.
Qed.

Lemma push_links_at_urls (name : string) (l : LinkDoc) (ss : list SectionDoc) :
  exists l1 l2 : list string,
    concat (map (fun s => map link_url (section_links s)) ss) = (l1 ++ l2)%list
    /\ (concat (map (fun s => map link_url (section_links s)) (Mongo.push_links_at name l ss))
        = (l1 ++ link_url l :: l2)%list
        \/ Mongo.push_links_at name l ss = ss).
Proof.
  induction ss as [| s ss (l1 & l2 & Hsplit & IH)]; simpl.
  - exists [], []. split; [done |]. by right.
  - destruct (String.eqb (section_name s) name); simpl.
    + exists (map link_url (section_links s)),
             (concat (map (fun s => map link_url (section_links s)) ss)).
      split; [done |]. left. rewrite map_app. simpl. by rewrite <- app_assoc.
    + exists (map link_url (section_links s) ++ l1)%list, l2. rewrite Hsplit.
      split; [by rewrite app_assoc |]. destruct IH as [IH | IH].
      * left. rewrite IH. by rewrite app_assoc.
      * right. by rewrite IH.
Qed.

Lemma push_sections_links_unique_urls (section : string) (l : LinkDoc) (c : CourseDoc) :
  link_url l ∉ course_urls c ->
  NoDup (course_urls c) ->
  NoDup (course_urls (Mongo.push_sections_links section l c)).
Proof.
  intros Hnew Hc. unfold course_urls in *. simpl.
  destruct (push_links_at_urls section l (course_sections c)) as (l1 & l2 & Hsplit & [H | H]).
  - rewrite H. rewrite Hsplit in Hnew, Hc.
    apply NoDup_app in Hc as (H1 & H12 & H2).
    apply not_elem_of_app in Hnew as [Hn1 Hn2].
    apply NoDup_app. split; [done |]. split.
    + intros x Hx [-> | Hx']%elem_of_cons; [done | by apply (H12 x)].
    + by apply NoDup_cons.
  - by rewrite H.
Qed.

Lemma inc_clicks_names (url : string) (c : CourseDoc) :
  map section_name (course_sections (Mongo.inc_clicks url c))
  = map section_name (course_sections c).
Proof.
  simpl. rewrite map_map. apply map_ext. intros s. by destruct (existsb _ _).
Qed.

Lemma inc_clicks_urls (url : string) (c : CourseDoc) :
  course_urls (Mongo.inc_clicks url c) = course_urls c.
Proof.
  unfold course_urls. simpl. rewrite map_map. f_equal. apply map_ext. intros s.
  destruct (existsb _ _); [| done]. simpl.
  rewrite map_map. apply map_ext. intros l. by destruct (String.eqb _ _).
Qed.

Section StoreInvariants.

Variable siteverify : string -> bool.
Variable mailer : string -> jsval -> deliveryOutcome.

Lemma same_Courses_keeps (w w' : World) :
  Courses w' = Courses w ->
  unique_section_names w /\ unique_urls w ->
  unique_section_names w' /\ unique_urls w'.
Proof. unfold unique_section_names, unique_urls. by intros ->. Qed.

Lemma post_courses_keeps (req : Request) : keeps_store (post_courses siteverify req).
Proof.
  intros w [Hn Hu]. unfold post_courses. destruct (_ && _); [| done].
  run_step. destruct (siteverify _); [| done].
  run_step. destruct (List.find _ _); [done |]. run_step.
  unfold unique_section_names, unique_urls in *. simpl.
  split; (apply Forall_app; split; [done |]); repeat constructor.
Qed.

Lemma post_sections_keeps (req : Request) : keeps_store (post_sections siteverify req).
Proof.
  intros w [Hn Hu]. unfold post_sections. destruct (_ && _); [| done].
  run_step. destruct (siteverify _); [| done].
  run_step. destruct (List.find _ _) eqn:Hdup; [done |]. run_step.
  assert (unique_section_names
            (set_Courses (Mongo.update_first
                            (Mongo.code_is (toUpperCase (trim (param_code req))))
                            (Mongo.push_sections (new_Section (body req))) (Courses w)) w)
          /\ unique_urls
               (set_Courses (Mongo.update_first
                               (Mongo.code_is (toUpperCase (trim (param_code req))))
                               (Mongo.push_sections (new_Section (body req))) (Courses w)) w))
    as Hgoal.
  { split.
    - unfold unique_section_names. simpl.
      by apply (push_sections_unique _ (String_ (get (body req) "name"))).
    - unfold unique_urls. simpl. apply update_first_Forall; [| done].
      intros c _ _ Hc. unfold course_urls. simpl.
      rewrite map_app, concat_app. simpl. by rewrite app_nil_r. }
  destruct (List.find (Mongo.code_is _) _); exact Hgoal.
Qed.

Lemma link_store_keeps (req : Request) (code section : string) :
  keeps_store (link_store req code section).
Proof.
  intros w [Hn Hu]. unfold link_store. run_step.
  destruct (List.find _ _) eqn:Hdup; [done |]. run_step.
  assert (forall c, c ∈ Courses w ->
                    Mongo.code_is code c && Mongo.sections_name_is section c = true ->
                    Mongo.sections_links_url_is (String_ (get (body req) "url")) c = false)
    as Hfresh.
  { intros c Hin%list_elem_of_In Hf. pose proof (List.find_none _ _ Hdup c Hin) as H.
    simpl in H. rewrite Hf in H. done. }
  assert (unique_section_names
            (set_Courses (Mongo.update_first
                            (fun c => Mongo.code_is code c && Mongo.sections_name_is section c)
                            (Mongo.push_sections_links section (new_Link (body req) (now req)))
                            (Courses w)) w)
          /\ unique_urls
               (set_Courses (Mongo.update_first
                               (fun c => Mongo.code_is code c && Mongo.sections_name_is section c)
                               (Mongo.push_sections_links section (new_Link (body req) (now req)))
                               (Courses w)) w))
    as Hgoal.
  { split.
    - unfold unique_section_names. simpl. apply update_first_Forall; [| done].
      intros c _ _ Hc. simpl. by rewrite push_links_at_names.
    - unfold unique_urls. simpl. apply update_first_Forall; [| done].
      intros c Hin Hf Hc. apply push_sections_links_unique_urls; [| done].
      simpl. apply sections_links_url_is_false. by apply Hfresh. }
  destruct (List.find (fun c => Mongo.code_is code c && Mongo.sections_name_is section c) _);
    exact Hgoal.
Qed.

Lemma post_link_keeps (req : Request) : keeps_store (post_link req).
Proof.
  intros w Hw. unfold post_link. destruct (normalized_username _); [| done].
  destruct (_ && _); [| done].
  simpl. destruct (Verifier.hasCode _ _ _); [| done].
  simpl. destruct (Verifier.checkCode _ _ _ _); [| done].
  by apply link_store_keeps.
Qed.

Lemma post_link_click_keeps (req : Request) : keeps_store (post_link_click req).
Proof.
  intros w [Hn Hu]. unfold post_link_click. destruct (_ && _); [| done]. run_step.
  split.
  - unfold unique_section_names. simpl. apply update_first_Forall; [| done].
    intros c _ _ Hc. by rewrite inc_clicks_names.
  - unfold unique_urls. simpl. apply update_first_Forall; [| done].
    intros c _ _ Hc. by rewrite inc_clicks_urls.
Qed.

Lemma post_verify_create_keeps (req : Request) :
  keeps_store (post_verify_create siteverify mailer req).
Proof.
  intros w. apply same_Courses_keeps. unfold post_verify_create.
  destruct (_ && _); [| done].
  run_step. destruct (siteverify _); [| done].
  destruct (method_replaceAll _ _ _); [| done].
  run_step. destruct (within_cooldown _); [done |].
  run_step. destruct (statusCode_is _ 422); [done |].
  by destruct (statusCode_is _ 202).
Qed.

Lemma post_report_keeps (req : Request) : keeps_store (post_report siteverify req).
Proof.
  intros w. apply same_Courses_keeps. unfold post_report.
  destruct (_ && _); [| done].
  run_step. by destruct (siteverify _).
Qed.

End StoreInvariants.

(** X15.  Served one at a time, for requests whose body fields are
    primitive values and whose body carries neither a [sections] nor a
    [links] field, no handler of any route makes two sections of one course
    share a name or two links of one course share a url: a world in which
    both hold is taken to a world in which both hold, and both hold of the
    empty world.  A body that carries a [sections] or [links] array (which
    lines 291 and 324 would hand to the store as it is) is not covered. *)
Theorem handlers_keep_names_and_urls_unique (siteverify : string -> bool)
        (mailer : string -> jsval -> deliveryOutcome) (r : Route) (req : Request) (w : World) :
  (unique_section_names empty_World /\ unique_urls empty_World)
  /\ (no_nested_documents (body req) ->
      unique_section_names w /\ unique_urls w ->
      unique_section_names (snd (run (handler siteverify mailer r req) w))
      /\ unique_urls (snd (run (handler siteverify mailer r req) w))).
Proof.
  split; [split; constructor |]. intros _.
  destruct r; simpl.
  - apply post_courses_keeps.
  - apply post_sections_keeps.
  - apply post_link_keeps.
  - apply post_link_click_keeps.
  - apply post_verify_create_keeps.
  - apply post_report_keeps.
Qed.

(** X15, witness: a link created in a course with one empty section. *)
Lemma handlers_keep_names_and_urls_unique_witness :
  let req := Fixture.request "eecs1012" "A"
               [("type", JStr "discord"); ("url", JStr "https://discord.gg/x");
                ("terms", JBool true); ("username", JStr "alice"); ("code", JStr "123456")]
               "10.0.0.1" 1000 JUndef in
  let w := set_verifier (Fixture.issued "alice" (JStr "123456") 0)
             (set_Courses [Fixture.course "EECS1012" [Fixture.sec "A" []]] empty_World) in
  status_of (fst (run (post_link req) w)) = Some CREATED
  /\ unique_urls (snd (run (post_link req) w)).
Proof.
  intros req w. split; [reflexivity |].
  apply (handlers_keep_names_and_urls_unique Fixture.human Fixture.delivers
           POST_courses_sections_link req w).
  - split; reflexivity.
  - split; repeat constructor. by intros H%elem_of_nil.
Defined.

(** ** Click counting *)

Lemma sum_Z_app (l1 l2 : list Z) : sum_Z (l1 ++ l2) = sum_Z l1 + sum_Z l2.
Proof. unfold sum_Z. induction l1 as [| x l1 IH]; simpl; lia. Qed.

Lemma inc_links_sum (url : string) (links : list LinkDoc) :
  sum_Z (map link_clicks
           (map (fun link => if String.eqb (link_url link) url then Mongo.inc_link link else link)
                links))
  = sum_Z (map link_clicks links)
    + Z.of_nat (length (List.filter (fun u => String.eqb u url) (map link_url links))).
Proof.
  unfold sum_Z. induction links as [| l links IH]; [done |]. simpl.
  destruct (String.eqb (link_url l) url); simpl; lia.
Qed.

Lemma no_url_no_occurrence (url : string) (links : list LinkDoc) :
  existsb (fun l => String.eqb (link_url l) url) links = false ->
  List.filter (fun u => String.eqb u url) (map link_url links) = [].
Proof.
  induction links as [| l links IH]; [done |]. simpl.
  destruct (String.eqb (link_url l) url); [done |]. apply IH.
Qed.

Lemma filter_concat {A : Type} (f : A -> bool) (ls : list (list A)) :
  List.filter f (concat ls) = concat (map (List.filter f) ls).
Proof.
  induction ls as [| l ls IH]; [done |]. simpl. by rewrite List.filter_app, IH.
Qed.

Lemma inc_clicks_sum (url : string) (c : CourseDoc) :
  course_clicks (Mongo.inc_clicks url c)
  = course_clicks c
    + Z.of_nat (length (List.filter (fun u => String.eqb u url) (course_urls c))).
Proof.
  unfold course_clicks, course_urls. simpl.
  induction (course_sections c) as [| s ss IH]; [done |].
  cbn [map concat]. rewrite List.filter_app, length_app, Nat2Z.inj_add.
  change (sum_Z (?x :: ?l)) with (x + sum_Z l). rewrite IH.
  destruct (existsb _ _) eqn:Hurl; cbn [section_links].
  - rewrite inc_links_sum. lia.
  - rewrite (no_url_no_occurrence _ _ Hurl). simpl. lia.
Qed.

Lemma one_occurrence (url : string) (urls : list string) :
  NoDup urls -> url ∈ urls ->
  length (List.filter (fun u => String.eqb u url) urls) = 1%nat.
Proof.
  induction 1 as [| u urls Hu Hnd IH]; [by intros H%elem_of_nil |]. simpl.
  destruct (String.eqb u url) eqn:E.
  - apply String.eqb_eq in E. subst u. intros _. simpl. f_equal.
    clear IH Hnd. induction urls as [| v urls IH]; [done |]. simpl.
    apply not_elem_of_cons in Hu as [Hv Hu].
    destruct (String.eqb v url) eqn:E; [apply String.eqb_eq in E; congruence |].
    by apply IH.
  - apply String.eqb_neq in E. intros [-> | Hin]%elem_of_cons; [done |]. by apply IH.
Qed.

Lemma sections_links_url_is_true (url : string) (c : CourseDoc) :
  Mongo.sections_links_url_is url c = true -> url ∈ course_urls c.
Proof.
  unfold Mongo.sections_links_url_is, course_urls.
  intros (s & Hs & (l & Hl & E)%existsb_exists)%existsb_exists.
  apply String.eqb_eq in E. apply list_elem_of_In, in_concat.
  exists (map link_url (section_links s)). split.
  - apply in_map_iff. by exists s.
  - apply in_map_iff. by exists l.
Qed.

Lemma update_first_total (f : CourseDoc -> bool) (u : CourseDoc -> CourseDoc)
      (cs : list CourseDoc) :
  sum_Z (map course_clicks (Mongo.update_first f u cs))
  = sum_Z (map course_clicks cs)
    + match List.find f cs with
      | Some c => course_clicks (u c) - course_clicks c
      | None => 0
      end.
Proof.
  unfold sum_Z. induction cs as [| c cs IH]; [done |]. simpl.
  destruct (f c); simpl; lia.
Qed.

(** X16.  With no url twice in a course, a click whose url is a string and
    whose fields are present raises the sum of all click counters by
    exactly one when some course meets the update's filter (the code, a
    section of the name, the url somewhere in the course), and leaves every
    counter alone otherwise. *)
Theorem click_counts_exactly_once (req : Request) (url : string) (w : World) :
  get (body req) "url" = JStr url ->
  unique_urls w ->
  truthy (get (body req) "url") && nonempty (toUpperCase (trim (param_code req)))
  && nonempty (param_section req) = true ->
  total_clicks (snd (run (post_link_click req) w))
  = total_clicks w + (if existsb (click_filter req) (Courses w) then 1 else 0).
Proof.
  intros _ Hu Hpresent. unfold post_link_click. rewrite Hpresent. run_step.
  unfold total_clicks. simpl. rewrite update_first_total. fold (click_filter req).
  destruct (List.find (click_filter req) (Courses w)) as [c |] eqn:Hfind.
  - apply List.find_some in Hfind as [Hin Hf].
    assert (existsb (click_filter req) (Courses w) = true) as ->.
    { apply existsb_exists. by exists c. }
    rewrite inc_clicks_sum, one_occurrence; [lia | |].
    + unfold unique_urls in Hu. rewrite Forall_forall in Hu. apply Hu.
      by apply list_elem_of_In.
    + apply sections_links_url_is_true. unfold click_filter in Hf.
      by apply andb_prop in Hf as [_ Hf].
  - assert (existsb (click_filter req) (Courses w) = false) as ->; [| lia].
    destruct (existsb _ _) eqn:E; [| done].
    apply existsb_exists in E as (c & Hin & Hf).
    by rewrite (List.find_none _ _ Hfind c Hin) in Hf.
Qed.

(** X16, witness: one click on the only copy of a url. *)
Lemma click_counts_exactly_once_witness :
  let url := "https://discord.gg/x" in
  let req := Fixture.request "eecs1012" "A" [("url", JStr url)] "10.0.0.1" 0 JUndef in
  let w := set_Courses [Fixture.course "EECS1012"
                          [Fixture.sec "A" [Fixture.link url 4]; Fixture.sec "B" []]]
                       empty_World in
  total_clicks w = 4 /\ total_clicks (snd (run (post_link_click req) w)) = 4 + 1.
Proof.
  intros url req w. split; [reflexivity |].
  apply (click_counts_exactly_once req url w); [reflexivity | | reflexivity].
  repeat constructor. by intros H%elem_of_nil.
Defined.

(** ** The course code of a route *)

Lemma upper_upper (c : ascii) : upper (upper c) = upper c.
Proof. by destruct c as [[|] [|] [|] [|] [|] [|] [|] [|]]. Qed.

Lemma is_white_upper (c : ascii) : is_white (upper c) = is_white c.
Proof. by destruct c as [[|] [|] [|] [|] [|] [|] [|] [|]]. Qed.

Lemma toUpperCase_idempotent (s : string) : toUpperCase (toUpperCase s) = toUpperCase s.
Proof. induction s as [| c s IH]; [done |]. simpl. by rewrite upper_upper, IH. Qed.

Lemma trimStart_toUpperCase (s : string) :
  trimStart (toUpperCase s) = toUpperCase (trimStart s).
Proof.
  induction s as [| c s IH]; [done |]. simpl. rewrite is_white_upper.
  by destruct (is_white c).
Qed.

Lemma trimEnd_toUpperCase (s : string) : trimEnd (toUpperCase s) = toUpperCase (trimEnd s).
Proof.
  induction s as [| c s IH]; [done |]. simpl. rewrite IH, is_white_upper.
  destruct (trimEnd s); simpl; [by destruct (is_white c) | done].
Qed.

Lemma trimEnd_cons (c : ascii) (s : string) :
  trimEnd (String c s)
  = match trimEnd s with
    | EmptyString => if is_white c then EmptyString else String c EmptyString
    | String d t => String c (String d t)
    end.
Proof. reflexivity. Qed.

Lemma trimEnd_idempotent (s : string) : trimEnd (trimEnd s) = trimEnd s.
Proof.
  induction s as [| c s IH]; [done |]. rewrite trimEnd_cons.
  destruct (trimEnd s) as [| d t] eqn:E.
  - destruct (is_white c) eqn:Hc; [done |]. rewrite trimEnd_cons. simpl. by rewrite Hc.
  - rewrite trimEnd_cons. by rewrite IH.
Qed.

Lemma trimStart_head (s : string) :
  match trimStart s with
  | EmptyString => True
  | String c _ => is_white c = false
  end.
Proof.
  induction s as [| c s IH]; [done |]. simpl.
  destruct (is_white c) eqn:Hc; [done |]. by simpl.
Qed.

Lemma trimStart_trimEnd (s : string) :
  match s with
  | EmptyString => True
  | String c _ => is_white c = false
  end ->
  trimStart (trimEnd s) = trimEnd s.
Proof.
  destruct s as [| c s]; [done |]. intros Hc. rewrite trimEnd_cons.
  destruct (trimEnd s); rewrite ?Hc; simpl; by rewrite Hc.
Qed.

Lemma trim_idempotent (s : string) : trim (trim s) = trim s.
Proof.
  unfold trim. rewrite (trimStart_trimEnd (trimStart s) (trimStart_head s)).
  apply trimEnd_idempotent.
Qed.

Lemma normal_code_idempotent (s : string) :
  toUpperCase (trim (toUpperCase (trim s))) = toUpperCase (trim s).
Proof.
  unfold trim at 1. rewrite trimStart_toUpperCase, trimEnd_toUpperCase.
  fold (trim (trim s)). by rewrite trim_idempotent, toUpperCase_idempotent.
Qed.

(** X17.  The course code of a route counts only up to surrounding white
    space and letter case, for route codes of ASCII characters (on which
    [trim] and [toUpperCase] are the ones modelled): normalizing such a
    code twice is normalizing it once, and section creation, link creation
    and link click are the same tasks for the code and for its trimmed,
    uppercased form. *)
Theorem route_code_is_normalized (siteverify : string -> bool) (req : Request) :
  is_ascii (param_code req) = true ->
  let code := toUpperCase (trim (param_code req)) in
  toUpperCase (trim code) = code
  /\ post_sections siteverify (with_param_code code req) = post_sections siteverify req
  /\ post_link (with_param_code code req) = post_link req
  /\ post_link_click (with_param_code code req) = post_link_click req.
Proof.
  intros _ code. subst code. split; [apply normal_code_idempotent |].
  unfold post_sections, post_link, post_link_click, link_store. cbn [param_code
    param_section body now with_param_code].
  by rewrite normal_code_idempotent.
Qed.

(** X17, witness: the route code " eecs1012 " and its normal form. *)
Lemma route_code_is_normalized_witness :
  let req := Fixture.request " eecs1012 " "A" [("url", JStr "https://discord.gg/x")]
                             "10.0.0.1" 0 JUndef in
  toUpperCase (trim (param_code req)) = "EECS1012"
  /\ post_link_click (with_param_code "EECS1012" req) = post_link_click req.
Proof.
  intros req. split; [reflexivity |].
  apply (route_code_is_normalized Fixture.human req). reflexivity.
Defined.

(** ** Two creations in flight *)

Lemma find_update_first_same (f : CourseDoc -> bool) (u : CourseDoc -> CourseDoc)
      (cs : list CourseDoc) :
  (forall c, f c = true -> f (u c) = true) ->
  is_Some (List.find f cs) -> is_Some (List.find f (Mongo.update_first f u cs)).
Proof.
  intros Hu. induction cs as [| c cs IH]; simpl; [by intros [? ?] |].
  destruct (f c) eqn:Hf; simpl.
  - intros _. rewrite (Hu c Hf). by eexists.
  - by rewrite Hf.
Qed.

Lemma update_first_twice_names (code name : string) (s : SectionDoc) (cs : list CourseDoc) :
  section_name s = name ->
  is_Some (List.find (Mongo.code_is code) cs) ->
  ~ Forall (fun c => NoDup (map section_name (course_sections c)))
      (Mongo.update_first (Mongo.code_is code) (Mongo.push_sections s)
         (Mongo.update_first (Mongo.code_is code) (Mongo.push_sections s) cs)).
Proof.
  intros Hs. induction cs as [| c cs IH]; simpl; [by intros [? ?] |].
  destruct (Mongo.code_is code c) eqn:Hc; simpl.
  - intros _. unfold Mongo.code_is in *. simpl. rewrite Hc.
    intros [Hnd _]%Forall_cons. simpl in Hnd.
    rewrite !map_app in Hnd. simpl in Hnd. rewrite <- app_assoc in Hnd. simpl in Hnd.
    apply NoDup_app in Hnd as (_ & _ & Hnd).
    apply NoDup_cons in Hnd as [Hnd _]. apply Hnd. left.
  - rewrite Hc. intros Hsome [_ Hrest]%Forall_cons. by apply IH.
Qed.

Lemma post_sections_created (siteverify : string -> bool) (req : Request) (w : World) :
  status_of (fst (run (post_sections siteverify req) w)) = Some CREATED ->
  nonempty (toUpperCase (trim (param_code req))) && truthy (get (body req) "name")
  && truthy (get (body req) "captcha") = true
  /\ siteverify (String_ (get (body req) "captcha")) = true
  /\ List.find (fun c => Mongo.code_is (toUpperCase (trim (param_code req))) c
                         && Mongo.sections_name_is (String_ (get (body req) "name")) c)
               (Courses w) = None
  /\ is_Some (List.find (Mongo.code_is (toUpperCase (trim (param_code req)))) (Courses w)).
Proof.
  unfold post_sections. destruct (_ && _); [| done].
  run_step. destruct (siteverify _); [| done].
  run_step. destruct (List.find _ _); [done |]. run_step.
  destruct (List.find (Mongo.code_is _) _); [| done]. by eauto.
Qed.

(** X18.  The duplicate check does not hold across requests in flight:
    whenever a section creation would be answered 201 served alone, two
    copies of it whose duplicate checks both complete before either push
    are both answered 201, the section is pushed twice, and the course's
    section names are no longer pairwise different. *)
Theorem section_creation_race (siteverify : string -> bool) (req : Request) (w : World) :
  status_of (fst (run (post_sections siteverify req) w)) = Some CREATED ->
  let push := Mongo.update_first (Mongo.code_is (toUpperCase (trim (param_code req))))
                                 (Mongo.push_sections (new_Section (body req))) in
  schedule [0; 1; 0; 1; 0; 1]%nat
           [post_sections siteverify req; post_sections siteverify req] w
  = ([Done (json CREATED (echo (body req))); Done (json CREATED (echo (body req)))],
     set_Courses (push (push (Courses w))) w)
  /\ ~ unique_section_names (set_Courses (push (push (Courses w))) w).
Proof.
  intros (Hguard & Hv & Hdup & [c Hcourse])%post_sections_created push. subst push. split.
  - unfold post_sections. rewrite Hguard.
    unfold schedule, turn, settle. simpl. unfold verifyReCaptcha. rewrite Hv. simpl.
    unfold Mongo.findOne, Mongo.findOneAndUpdate. simpl.
    repeat (first [rewrite Hdup | rewrite Hcourse]; simpl).
    destruct (find_update_first_same
                (Mongo.code_is (toUpperCase (trim (param_code req))))
                (Mongo.push_sections (new_Section (body req))) (Courses w)) as [c' ->];
      [done | by rewrite Hcourse | done].
  - unfold unique_section_names. simpl.
    apply (update_first_twice_names _ (String_ (get (body req) "name"))); [done |].
    by rewrite Hcourse.
Qed.

(** X18, witness: any name not yet in the course, here "B" beside "A". *)
Lemma section_creation_race_witness :
  let req := Fixture.request "eecs1012" ""
               [("name", JStr "B"); ("captcha", JStr "human")] "10.0.0.1" 0 JUndef in
  let w := set_Courses [Fixture.course "EECS1012" [Fixture.sec "A" []]] empty_World in
  map (fun c => map section_name (course_sections c))
      (Courses (snd (schedule [0; 1; 0; 1; 0; 1]%nat
                              [post_sections Fixture.human req; post_sections Fixture.human req]
                              w)))
  = [["A"; "B"; "B"]].
Proof.
  intros req w.
  rewrite (proj1 (section_creation_race Fixture.human req w eq_refl)). reflexivity.
Defined.

Lemma link_store_created (req : Request) (code section : string) (w : World) :
  status_of (fst (run (link_store req code section) w)) = Some CREATED ->
  List.find (fun c => Mongo.code_is code c && Mongo.sections_name_is section c
                      && Mongo.sections_links_url_is (String_ (get (body req) "url")) c)
            (Courses w) = None
  /\ is_Some (List.find (fun c => Mongo.code_is code c && Mongo.sections_name_is section c)
                        (Courses w)).
Proof.
  unfold link_store. run_step. destruct (List.find _ _); [done |]. run_step.
  destruct (List.find (fun c => Mongo.code_is code c && Mongo.sections_name_is section c) _);
    [| done].
  by eauto.
Qed.

Lemma push_links_at_twice_urls (name : string) (l1 l2 : LinkDoc) (ss : list SectionDoc) :
  link_url l2 = link_url l1 ->
  existsb (fun s => String.eqb (section_name s) name) ss = true ->
  ~ NoDup (concat (map (fun s => map link_url (section_links s))
                       (Mongo.push_links_at name l2 (Mongo.push_links_at name l1 ss)))).
Proof.
  intros Hl. induction ss as [| s ss IH]; [done |]. simpl.
  destruct (String.eqb (section_name s) name) eqn:Hs; simpl.
  - intros _. rewrite Hs. simpl. rewrite !map_app. simpl.
    rewrite <- !app_assoc. simpl. rewrite Hl.
    intros (_ & _ & Hnd)%NoDup_app.
    apply NoDup_cons in Hnd as [Hnd _]. apply Hnd. left.
  - rewrite Hs. simpl. intros Hex (_ & _ & Hnd)%NoDup_app. by apply IH.
Qed.

Lemma update_first_twice_urls (code section : string) (l1 l2 : LinkDoc)
      (cs : list CourseDoc) :
  link_url l2 = link_url l1 ->
  is_Some (List.find (fun c => Mongo.code_is code c && Mongo.sections_name_is section c) cs) ->
  ~ Forall (fun c => NoDup (course_urls c))
      (Mongo.update_first (fun c => Mongo.code_is code c && Mongo.sections_name_is section c)
         (Mongo.push_sections_links section l2)
         (Mongo.update_first (fun c => Mongo.code_is code c && Mongo.sections_name_is section c)
            (Mongo.push_sections_links section l1) cs)).
Proof.
  intros Hl. induction cs as [| c cs IH]; simpl; [by intros [? ?] |].
  destruct (Mongo.code_is code c && Mongo.sections_name_is section c) eqn:Hc; simpl.
  - intros _.
    assert (Mongo.code_is code (Mongo.push_sections_links section l1 c)
            && Mongo.sections_name_is section (Mongo.push_sections_links section l1 c) = true)
      as ->.
    { apply andb_prop in Hc as [H1 H2]. apply andb_true_intro. split; [done |].
      rewrite (sections_name_is_names section c); [done |]. simpl. apply push_links_at_names. }
    intros [Hnd _]%Forall_cons. revert Hnd. unfold course_urls. simpl.
    apply push_links_at_twice_urls; [done |]. by apply andb_prop in Hc as [_ H2].
  - rewrite Hc. intros Hsome [_ Hrest]%Forall_cons. by apply IH.
Qed.

(** X19.  Link creation has the same gap.  Take a link creation that
    would be answered 201 served alone, and a second one from another
    identity for the same course, section and url that gets past the
    verifier in the same world.  When their duplicate checks both complete
    before either push, both are answered 201, both links are pushed, and
    the url then occurs twice in the course. *)
Theorem link_creation_race (req other : Request) (w : World) :
  status_of (fst (run (post_link req) w)) = Some CREATED ->
  same_target req other ->
  passes_verification other w ->
  normalized_username (body other) <> normalized_username (body req) ->
  let after := schedule [0; 1; 0; 1; 0; 1]%nat [post_link req; post_link other] w in
  map finished (fst after)
  = [Some (json CREATED (echo (body req))); Some (json CREATED (echo (body other)))]
  /\ Courses (snd after) = link_push other (link_push req (Courses w))
  /\ ~ unique_urls (snd after).
Proof.
  intros H (Hc & Hs & Hu) (u & Hname' & Hreq' & Hhas' & Hchk') _ after. subst after.
  destruct (post_link_created req w H) as (username & Hname & Hreq & Hhas & Hchk & Hrun).
  rewrite Hrun in H. apply link_store_created in H as [Hdup [c Hcourse]].
  assert (schedule [0; 1; 0; 1; 0; 1]%nat [post_link req; post_link other] w
          = ([Done (json CREATED (echo (body req))); Done (json CREATED (echo (body other)))],
             set_Courses (link_push other (link_push req (Courses w))) w)) as ->.
  { unfold post_link, link_push. rewrite Hname, Hname', Hc, Hs.
    unfold required_fields in Hreq, Hreq'. rewrite Hc, Hs in Hreq'. rewrite Hreq, Hreq'.
    assert (or_else (get (body req) "code") (JNum 0) = get (body req) "code") as ->.
    { apply or_else_truthy. by apply andb_prop in Hreq as [_ ?]. }
    assert (or_else (get (body other) "code") (JNum 0) = get (body other) "code") as ->.
    { apply or_else_truthy. by apply andb_prop in Hreq' as [_ ?]. }
    unfold link_store, schedule, turn, settle, Mongo.findOne, Mongo.findOneAndUpdate. simpl.
    rewrite Hu.
    repeat (first [rewrite Hhas | rewrite Hchk | rewrite Hhas' | rewrite Hchk'
                  | rewrite Hdup | rewrite Hcourse]; simpl).
    destruct (find_update_first_same
                (fun c => Mongo.code_is (toUpperCase (trim (param_code req))) c
                          && Mongo.sections_name_is (param_section req) c)
                (Mongo.push_sections_links (param_section req) (new_Link (body req) (now req)))
                (Courses w)) as [c' ->]; [| by rewrite Hcourse | done].
    intros c0 [H1 H2]%andb_prop. apply andb_true_intro. split; [done |].
    rewrite (sections_name_is_names _ c0); [done |]. simpl. apply push_links_at_names. }
  split; [done |]. split; [done |].
  unfold unique_urls, link_push. simpl. rewrite Hc, Hs.
  apply update_first_twice_urls; [exact Hu | by rewrite Hcourse].
Qed.

(** X19, witness: alice and bob, each with a live code, send the same url
    for the same section at once. *)
Lemma link_creation_race_witness :
  let fields user code := [("type", JStr "discord"); ("url", JStr "https://discord.gg/x");
                           ("terms", JBool true); ("username", JStr user);
                           ("code", JStr code)] in
  let alice := Fixture.request "eecs1012" "A" (fields "alice" "123456") "10.0.0.1" 1000 JUndef in
  let bob := Fixture.request "eecs1012" "A" (fields "bob" "654321") "10.0.0.2" 1000 JUndef in
  let w := set_verifier (Fixture.issued "alice" (JStr "123456") 0
                           ∪ Fixture.issued "bob" (JStr "654321") 0)
             (set_Courses [Fixture.course "EECS1012" [Fixture.sec "A" []]] empty_World) in
  map course_urls (Courses (snd (schedule [0; 1; 0; 1; 0; 1]%nat
                                          [post_link alice; post_link bob] w)))
  = [["https://discord.gg/x"; "https://discord.gg/x"]].
Proof.
  intros fields alice bob w.
  assert (status_of (fst (run (post_link alice) w)) = Some CREATED) as H1 by reflexivity.
  assert (same_target alice bob) as H2 by (by vm_compute).
  assert (passes_verification bob w) as H3 by (exists "bob"; by vm_compute).
  assert (normalized_username (body bob) <> normalized_username (body alice)) as H4
    by (by vm_compute).
  destruct (link_creation_race alice bob w H1 H2 H3 H4) as (_ & -> & _). reflexivity.
Defined.
